(** * Key lifecycle scripts of the YubiKey sub-key network

    A shallow embedding of [examples/scripts/key-generation/generate_keys.py]
    (class [KeyGenerator]) and of [NetworkDeployer.setup_yubikey] from
    [examples/scripts/deployment/deploy_yubikey_network.py].

    The scripts drive three external collaborators: the [gnupg] keyring
    binding, the [ykman] PIV controller and the operating system
    ([open], [subprocess.run]).  None of them belongs to the repository, so
    they are taken as a parameter: a [Backend] answers every call from its own
    state.  Every call made by the scripts is appended to a trace, which is
    what most statements below talk about.  A reference backend following the
    Keyring Service / Hardware Token Manager contracts is given further down
    and is used to run the scripts on concrete inputs. *)

From Stdlib Require Import ZArith List String Ascii Bool Lia.
Import ListNotations.
Local Open Scope string_scope.
Local Open Scope list_scope.

(** ** Python strings and lists

    A Python [str] is modelled as a Rocq [string] whose characters are the
    code points below 256. *)

Module PyStr.

(** [str.isspace] restricted to code points below 256. *)
Definition is_space (c : ascii) : bool :=
  let n := N_of_ascii c in
  (((9 <=? n) && (n <=? 13)) || ((28 <=? n) && (n <=? 32))
   || (n =? 133) || (n =? 160))%N.

Definition is_empty (s : string) : bool :=
  match s with EmptyString => true | String _ _ => false end.

(** [sub in s] *)
Fixpoint contains (sub s : string) : bool :=
  if prefix sub s then true
  else match s with
       | EmptyString => false
       | String _ s' => contains sub s'
       end.

(** [s.split()] : maximal runs of non-whitespace characters. *)
Fixpoint split_from (cur s : string) : list string :=
  match s with
  | EmptyString => if is_empty cur then [] else [cur]
  | String c s' =>
      if is_space c
      then (if is_empty cur then split_from "" s' else cur :: split_from "" s')
      else split_from (cur ++ String c "") s'
  end.

Definition split (s : string) : list string := split_from "" s.

Fixpoint lstrip (s : string) : string :=
  match s with
  | EmptyString => EmptyString
  | String c s' => if is_space c then lstrip s' else s
  end.

Fixpoint rstrip (s : string) : string :=
  match s with
  | EmptyString => EmptyString
  | String c s' =>
      let r := rstrip s' in
      if is_space c && is_empty r then EmptyString else String c r
  end.

(** [s.strip()] *)
Definition strip (s : string) : string := rstrip (lstrip s).

Definition hex_digit (n : N) : ascii :=
  (if n <? 10 then ascii_of_N (48 + n) else ascii_of_N (87 + n))%N.

Fixpoint hex_from (fuel : nat) (n : N) (acc : string) : string :=
  match fuel with
  | O => acc
  | S fuel' =>
      let acc' := String (hex_digit (n mod 16)) acc in
      if (n / 16 =? 0)%N then acc' else hex_from fuel' (n / 16)%N acc'
  end.

(** [format(n, '02x')] for a non-negative [n]. *)
Definition format_02x (z : Z) : string :=
  let n := Z.to_N z in
  let h := hex_from (S (N.to_nat (N.log2 n))) n "" in
  if (String.length h <? 2)%nat then "0" ++ h else h.

Fixpoint dec_from (fuel : nat) (n : N) (acc : string) : string :=
  match fuel with
  | O => acc
  | S fuel' =>
      let acc' := String (ascii_of_N (48 + n mod 10)) acc in
      if (n / 10 =? 0)%N then acc' else dec_from fuel' (n / 10)%N acc'
  end.

(** [str(n)] for an [int]. *)
Definition str_int (z : Z) : string :=
  let n := Z.abs_N z in
  let d := dec_from (S (N.to_nat (N.log2 n))) n "" in
  if (z <? 0)%Z then "-" ++ d else d.

(** [", ".join(l)], used to print argument lists. *)
Fixpoint join (sep : string) (l : list string) : string :=
  match l with
  | [] => ""
  | [x] => x
  | x :: l' => x ++ sep ++ join sep l'
  end.

End PyStr.

(** ** Exceptions and results *)

Inductive exn : Type :=
| Exception (msg : string)
| ValueError (msg : string)
| IndexError (msg : string)
| AttributeError (msg : string)
| KeyError (key : string)
| TypeError (msg : string)
| CalledProcessError (cmd : list string) (returncode : Z)
| ExternalError (msg : string).
(* [ExternalError] stands for whatever a collaborator raises on its own:
   an I/O error of [open], a missing executable, a failure inside gnupg or
   ykman.  All constructors are subclasses of Python's [Exception]. *)

Definition str_exn (e : exn) : string :=
  match e with
  | Exception m | ValueError m | IndexError m | AttributeError m
  | TypeError m | ExternalError m => m
  | KeyError k => "'" ++ k ++ "'"
  | CalledProcessError cmd rc =>
      "Command '[" ++ PyStr.join ", " cmd ++ "]' returned non-zero exit status "
      ++ PyStr.str_int rc ++ "."
  end.

Inductive result (A : Type) : Type :=
| Ok (a : A)
| Raise (e : exn).
Arguments Ok {A} a.
Arguments Raise {A} e.

(** [l[i]] for [i >= 0] and [l[-1]]. *)
Definition index {A} (l : list A) (i : nat) : result A :=
  match nth_error l i with
  | Some a => Ok a
  | None => Raise (IndexError "list index out of range")
  end.

Definition index_last {A} (l : list A) : result A :=
  match rev l with
  | a :: _ => Ok a
  | [] => Raise (IndexError "list index out of range")
  end.

(** ** Values exchanged with the collaborators *)

Inductive pyval : Type :=
| PStr (s : string)
| PInt (z : Z).

(** A [dict] with string keys, and the deployment configuration: a
    dictionary of sections, each a dictionary of scalar entries. *)
Fixpoint dict_get {A} (k : string) (d : list (string * A)) : option A :=
  match d with
  | [] => None
  | (k', v) :: d' => if (k =? k')%string then Some v else dict_get k d'
  end.

Definition Config : Type := list (string * list (string * pyval)).

(** [ykman.cli.piv.PIN_POLICY] and [TOUCH_POLICY]. *)
Inductive PIN_POLICY : Type := PIN_NEVER | PIN_ONCE | PIN_ALWAYS.
Inductive TOUCH_POLICY : Type := TOUCH_NEVER | TOUCH_CACHED | TOUCH_ALWAYS.

(** Result object of [gpg.gen_key]: its truth value and its fingerprint. *)
Record GenKey : Type := { gk_truthy : bool; fingerprint : string }.

(** Result object of [gpg.run_command]. *)
Record CompletedProcess : Type :=
  { returncode : Z; stdout : string; stderr : string }.

(** Result object of [gpg.sign]. *)
Record Sign : Type := { data : string }.

(** One entry of [gpg.list_keys]: the two keys [rotate_key] reads. *)
Record KeyInfo : Type := { keyid : string; uids : list string }.

(** Handle returned by [ykman.cli.piv.Controller()]. *)
Definition handle : Type := nat.

(** The parsed command line of [generate_keys.py]. *)
Inductive Action : Type :=
| generate_master | generate_device | generate_router | rotate.

Record Args : Type := {
  args_action : Action;
  args_id : option string;
  args_master_key : option string;
  args_debug : bool
}.

(** How a run of the command line ends: an exit status, or a printed line. *)
Inductive Outcome : Type :=
| Exit (status : Z)
| Printed (line : string).

(** [not x] for an [Optional[str]]. *)
Definition falsy (o : option string) : bool :=
  match o with
  | None => true
  | Some s => PyStr.is_empty s
  end.

(** Every call that leaves the scripts. *)
Inductive event : Type :=
| EGenKeyInput (params : list (string * pyval))
| EGenKey (key_input : string)
| EExportKeys (key : string) (secret : bool)
| EGenRevoke (key reason text : string)
| ERunCommand (prog : string) (args : list string)
| ESign (message key : string) (detach : bool)
| EVerifyData (sig message : string)
| EListKeys (keys : list string) (secret : bool)
| EController
| EImportKey (h : handle) (slot : Z) (key_data : string)
    (pin_policy : PIN_POLICY) (touch_policy : TOUCH_POLICY)
| EOpenWrite (path content : string)
| ESubprocessRun (args : list string).

Inductive level : Type := INFO | ERROR.

(** The collaborators: each call maps the collaborator state to an answer and
    a new state. *)
Record Backend (St : Type) : Type := {
  gpg_gen_key_input : list (string * pyval) -> St -> result string * St;
  gpg_gen_key : string -> St -> result GenKey * St;
  gpg_export_keys : string -> bool -> St -> result string * St;
  gpg_gen_revoke : string -> string -> string -> St -> result string * St;
  gpg_run_command : string -> list string -> St -> result CompletedProcess * St;
  gpg_sign : string -> string -> bool -> St -> result Sign * St;
  gpg_verify_data : string -> string -> St -> result bool * St;
  gpg_list_keys : list string -> bool -> St -> result (list KeyInfo) * St;
  piv_Controller : St -> result handle * St;
  piv_import_key :
    handle -> Z -> string -> PIN_POLICY -> TOUCH_POLICY -> St -> result unit * St;
  os_open_write : string -> string -> St -> result unit * St;
  os_subprocess_run : list string -> St -> result Z * St
}.

(** What a script run can see and change: the collaborators' state, the trace
    of calls made so far, the log, and the [self.yubikey] attribute. *)
Record World (St : Type) : Type := {
  ext : St;
  trace : list event;
  logs : list (level * string);
  self_yubikey : option handle
}.
Arguments ext {St} w.
Arguments trace {St} w.
Arguments logs {St} w.
Arguments self_yubikey {St} w.

Definition init_world {St} (s : St) : World St :=
  {| ext := s; trace := []; logs := []; self_yubikey := None |}.

(** ** The state-and-exception monad of a script run *)

Definition M (St A : Type) : Type := World St -> result A * World St.

Definition ret {St A} (a : A) : M St A := fun w => (Ok a, w).

Definition raise {St A} (e : exn) : M St A := fun w => (Raise e, w).

Definition bind {St A B} (m : M St A) (k : A -> M St B) : M St B :=
  fun w =>
    match m w with
    | (Ok a, w') => k a w'
    | (Raise e, w') => (Raise e, w')
    end.

(** [try: body except Exception as e: handler]: the handler runs in the world
    the body left behind. *)
Definition try_except {St A} (body : M St A) (handler : exn -> M St A) : M St A :=
  fun w =>
    match body w with
    | (Ok a, w') => (Ok a, w')
    | (Raise e, w') => handler e w'
    end.

(** A value computed without touching the world, which may raise. *)
Definition lift {St A} (r : result A) : M St A := fun w => (r, w).

Declare Scope py_scope.
Delimit Scope py_scope with py.
Notation "x <- m ;; k" := (bind m (fun x => k))
  (at level 61, m at next level, right associativity) : py_scope.
Notation "m ;;; k" := (bind m (fun _ => k))
  (at level 61, right associativity) : py_scope.
Local Open Scope py_scope.

(** One call to a collaborator: recorded in the trace, answered by the
    backend. *)
Definition call {St A} (ev : event) (f : St -> result A * St) : M St A :=
  fun w =>
    let (r, s') := f (ext w) in
    (r, {| ext := s'; trace := trace w ++ [ev]; logs := logs w;
           self_yubikey := self_yubikey w |}).

Definition log {St} (l : level) (msg : string) : M St unit :=
  fun w =>
    (Ok tt, {| ext := ext w; trace := trace w; logs := logs w ++ [(l, msg)];
               self_yubikey := self_yubikey w |}).

Definition set_yubikey {St} (h : handle) : M St unit :=
  fun w =>
    (Ok tt, {| ext := ext w; trace := trace w; logs := logs w;
               self_yubikey := Some h |}).

Definition get_yubikey {St} : M St (option handle) :=
  fun w => (Ok (self_yubikey w), w).

(** ** [generate_keys.py]: class [KeyGenerator] *)

Section KeyGenerator.

Context {St : Type} (B : Backend St).

Local Abbreviation Run := (M St).

Definition gpg_CALL_gen_key_input (params : list (string * pyval)) : Run string :=
  call (EGenKeyInput params) (gpg_gen_key_input St B params).

Definition gpg_CALL_gen_key (key_input : string) : Run GenKey :=
  call (EGenKey key_input) (gpg_gen_key St B key_input).

Definition gpg_CALL_export_keys (key : string) (secret : bool) : Run string :=
  call (EExportKeys key secret) (gpg_export_keys St B key secret).

Definition gpg_CALL_gen_revoke (key reason text : string) : Run string :=
  call (EGenRevoke key reason text) (gpg_gen_revoke St B key reason text).

Definition gpg_CALL_run_command (prog : string) (args : list string)
  : Run CompletedProcess :=
  call (ERunCommand prog args) (gpg_run_command St B prog args).

Definition gpg_CALL_sign (message key : string) (detach : bool) : Run Sign :=
  call (ESign message key detach) (gpg_sign St B message key detach).

Definition gpg_CALL_verify_data (sig message : string) : Run bool :=
  call (EVerifyData sig message) (gpg_verify_data St B sig message).

Definition gpg_CALL_list_keys (keys : list string) (secret : bool)
  : Run (list KeyInfo) :=
  call (EListKeys keys secret) (gpg_list_keys St B keys secret).

Definition piv_CALL_Controller : Run handle :=
  call EController (piv_Controller St B).

Definition piv_CALL_import_key (h : handle) (slot : Z) (key_data : string)
    (pin_policy : PIN_POLICY) (touch_policy : TOUCH_POLICY) : Run unit :=
  call (EImportKey h slot key_data pin_policy touch_policy)
       (piv_import_key St B h slot key_data pin_policy touch_policy).

(** [with open(path, 'w') as f: f.write(content)] *)
Definition open_write (path content : string) : Run unit :=
  call (EOpenWrite path content) (os_open_write St B path content).

(** [subprocess.run(args, check=True)] *)
Definition subprocess_run_check (args : list string) : Run unit :=
  rc <- call (ESubprocessRun args) (os_subprocess_run St B args) ;;
  if (rc =? 0)%Z then ret tt else raise (CalledProcessError args rc).

(** [connect_yubikey], lines 44-51. *)
Definition connect_yubikey : Run bool :=
  try_except
    (h <- piv_CALL_Controller ;;
     set_yubikey h ;;;
     ret true)
    (fun e =>
       log ERROR ("Failed to connect to YubiKey: " ++ str_exn e) ;;;
       ret false).

Definition master_key_params : list (string * pyval) :=
  [ ("Key-Type", PStr "RSA");
    ("Key-Length", PInt 4096);
    ("Name-Real", PStr "YubiKey Network Master");
    ("Name-Email", PStr "master@yubikey-network.local");
    ("Expire-Date", PInt 0) ].

(** [generate_master_key], lines 53-91. *)
Definition generate_master_key : Run (option string) :=
  try_except
    (let key_params := master_key_params in
     key_input <- gpg_CALL_gen_key_input key_params ;;
     key <- gpg_CALL_gen_key key_input ;;
     if negb (gk_truthy key)
     then raise (Exception "Failed to generate master key")
     else
       public_key <- gpg_CALL_export_keys (fingerprint key) false ;;
       open_write "master.pub" public_key ;;;
       revoke_cert <- gpg_CALL_gen_revoke (fingerprint key) "1"
                        "Emergency revocation certificate" ;;
       open_write "master-revoke.asc" revoke_cert ;;;
       log INFO ("Generated master key: " ++ fingerprint key) ;;;
       ret (Some (fingerprint key)))
    (fun e =>
       log ERROR ("Failed to generate master key: " ++ str_exn e) ;;;
       ret None).

(** The [key_params] dictionary built at lines 97-104; nothing reads it. *)
Definition device_key_params (device_id : string) : list (string * pyval) :=
  [ ("Key-Type", PStr "ECDSA");
    ("Key-Curve", PStr "nistp256");
    ("Key-Usage", PStr "sign,auth");
    ("Name-Real", PStr ("Device " ++ device_id));
    ("Name-Email", PStr ("device-" ++ device_id ++ "@yubikey-network.local"));
    ("Expire-Date", PStr "1y") ].

(** [generate_device_subkey], lines 93-121. *)
Definition generate_device_subkey (master_key device_id : string)
  : Run (option string) :=
  try_except
    (let key_params := device_key_params device_id in
     result <- gpg_CALL_run_command "gpg"
                 ["--quick-add-key"; master_key; "nistp256"; "sign"; "1y"] ;;
     if negb (returncode result =? 0)%Z
     then raise (Exception ("Failed to generate sub-key: " ++ stderr result))
     else
       subkey_id <- lift (index_last (PyStr.split (PyStr.strip (stdout result)))) ;;
       log INFO ("Generated device sub-key: " ++ subkey_id) ;;;
       ret (Some subkey_id))
    (fun e =>
       log ERROR ("Failed to generate device sub-key: " ++ str_exn e) ;;;
       ret None).

(** The [key_params] dictionary built at lines 127-134; nothing reads it. *)
Definition router_key_params (router_id : string) : list (string * pyval) :=
  [ ("Key-Type", PStr "ECDSA");
    ("Key-Curve", PStr "nistp384");
    ("Key-Usage", PStr "sign,auth,encrypt");
    ("Name-Real", PStr ("Router " ++ router_id));
    ("Name-Email", PStr ("router-" ++ router_id ++ "@yubikey-network.local"));
    ("Expire-Date", PStr "6m") ].

(** [generate_router_subkey], lines 123-151. *)
Definition generate_router_subkey (master_key router_id : string)
  : Run (option string) :=
  try_except
    (let key_params := router_key_params router_id in
     result <- gpg_CALL_run_command "gpg"
                 ["--quick-add-key"; master_key; "nistp384"; "sign"; "6m"] ;;
     if negb (returncode result =? 0)%Z
     then raise (Exception ("Failed to generate sub-key: " ++ stderr result))
     else
       subkey_id <- lift (index_last (PyStr.split (PyStr.strip (stdout result)))) ;;
       log INFO ("Generated router sub-key: " ++ subkey_id) ;;;
       ret (Some subkey_id))
    (fun e =>
       log ERROR ("Failed to generate router sub-key: " ++ str_exn e) ;;;
       ret None).

(** [import_key_to_yubikey], lines 153-182. *)
Definition import_key_to_yubikey (key_id key_type : string) : Run bool :=
  try_except
    (connected <- connect_yubikey ;;
     if negb connected
     then raise (Exception "No YubiKey connected")
     else
       key_data <- gpg_CALL_export_keys key_id true ;;
       slot <- (if (key_type =? "device")%string then ret 154%Z      (* 0x9a *)
                else if (key_type =? "router")%string then ret 156%Z (* 0x9c *)
                else raise (ValueError ("Invalid key type: " ++ key_type))) ;;
       yk <- get_yubikey ;;
       match yk with
       | None =>
           raise (AttributeError
                    "'NoneType' object has no attribute 'import_key'")
       | Some h =>
           piv_CALL_import_key h slot key_data PIN_ONCE TOUCH_ALWAYS ;;;
           log INFO ("Imported " ++ key_type ++ " key to YubiKey slot "
                     ++ PyStr.format_02x slot) ;;;
           ret true
       end)
    (fun e =>
       log ERROR ("Failed to import key to YubiKey: " ++ str_exn e) ;;;
       ret false).

(** The probe message of [verify_key]. *)
Definition test_data : string := "Test message for key verification".

(** [verify_key], lines 184-209. *)
Definition verify_key (key_id : string) : Run bool :=
  try_except
    (signature <- gpg_CALL_sign test_data key_id true ;;
     verify <- gpg_CALL_verify_data (data signature) test_data ;;
     if negb verify
     then raise (Exception "Signature verification failed")
     else
       log INFO ("Successfully verified key: " ++ key_id) ;;;
       ret true)
    (fun e =>
       log ERROR ("Key verification failed: " ++ str_exn e) ;;;
       ret false).

(** [str(x)] of an [Optional[str]] inside an f-string. *)
Definition str_opt (o : option string) : string :=
  match o with Some s => s | None => "None" end.

(** [rotate_key], lines 211-242. *)
Definition rotate_key (key_id : string) : Run (option string) :=
  try_except
    (listed <- gpg_CALL_list_keys [key_id] true ;;
     key_info <- lift (index listed 0) ;;
     uid <- lift (index (uids key_info) 0) ;;
     new_key_id <-
       (if PyStr.contains "device" uid then
          entity <- lift (index (PyStr.split uid) 1) ;;
          generate_device_subkey (keyid key_info) entity
        else if PyStr.contains "router" uid then
          entity <- lift (index (PyStr.split uid) 1) ;;
          generate_router_subkey (keyid key_info) entity
        else raise (ValueError ("Unknown key type for " ++ key_id))) ;;
     gpg_CALL_run_command "gpg" ["--quick-revoke"; key_id] ;;;
     log INFO ("Rotated key " ++ key_id ++ " to " ++ str_opt new_key_id) ;;;
     ret new_key_id)
    (fun e =>
       log ERROR ("Failed to rotate key: " ++ str_exn e) ;;;
       ret None).

(** [main], lines 244-312: the command line.  [parser.error] and [sys.exit]
    raise [SystemExit], which is not an [Exception] and so is not caught by
    the [except Exception] around the dispatch: the exit status is modelled as
    the outcome of the run.  The construction of the [KeyGenerator] object
    before the dispatch makes no call that a statement below depends on and
    is left out. *)
Definition main (args : Args) : Run Outcome :=
  try_except
    (match args_action args with
     | generate_master =>
         key_id <- generate_master_key ;;
         if falsy key_id then ret (Exit 1)
         else ret (Printed ("Generated master key: " ++ str_opt key_id))
     | generate_device =>
         if falsy (args_master_key args) || falsy (args_id args)
         then ret (Exit 2)
         else
           key_id <- generate_device_subkey (str_opt (args_master_key args))
                       (str_opt (args_id args)) ;;
           if falsy key_id then ret (Exit 1)
           else ret (Printed ("Generated device key: " ++ str_opt key_id))
     | generate_router =>
         if falsy (args_master_key args) || falsy (args_id args)
         then ret (Exit 2)
         else
           key_id <- generate_router_subkey (str_opt (args_master_key args))
                       (str_opt (args_id args)) ;;
           if falsy key_id then ret (Exit 1)
           else ret (Printed ("Generated router key: " ++ str_opt key_id))
     | rotate =>
         if falsy (args_id args)
         then ret (Exit 2)
         else
           new_key_id <- rotate_key (str_opt (args_id args)) ;;
           if falsy new_key_id then ret (Exit 1)
           else ret (Printed ("Rotated key to: " ++ str_opt new_key_id))
     end)
    (fun e =>
       log ERROR ("Operation failed: " ++ str_exn e) ;;;
       ret (Exit 1)).

(** ** [deploy_yubikey_network.py]: [NetworkDeployer.setup_yubikey] *)

(** [self.config[section][k]] *)
Definition config_get (config : Config) (section k : string) : Run pyval :=
  match dict_get section config with
  | None => raise (KeyError section)
  | Some d =>
      match dict_get k d with
      | None => raise (KeyError k)
      | Some v => ret v
      end
  end.

(** [subprocess.run(args, check=True)] where the last argument comes from the
    configuration: an argument that is not a [str] is refused before anything
    is executed. *)
Definition subprocess_run_check_cfg (args : list string) (last : pyval)
  : Run unit :=
  match last with
  | PStr s => subprocess_run_check (args ++ [s])
  | PInt _ =>
      raise (TypeError "expected str, bytes or os.PathLike object, not int")
  end.

(** [setup_yubikey], lines 251-277. *)
Definition setup_yubikey (config : Config) : Run bool :=
  try_except
    (subprocess_run_check ["ykman"; "piv"; "reset"; "-f"] ;;;
     pin <- config_get config "yubikey" "pin" ;;
     subprocess_run_check_cfg
       ["ykman"; "piv"; "access"; "change-pin"; "-P"; "123456"; "-n"] pin ;;;
     puk <- config_get config "yubikey" "puk" ;;
     subprocess_run_check_cfg
       ["ykman"; "piv"; "access"; "change-puk"; "-p"; "12345678"; "-n"] puk ;;;
     log INFO "YubiKey setup completed" ;;;
     ret true)
    (fun e =>
       log ERROR ("YubiKey setup failed: " ++ str_exn e) ;;;
       ret false).

End KeyGenerator.

(** ** A reference keyring and token

    A small executable stand-in for the collaborators, used to run the scripts
    on concrete inputs.  The keyring is a flat list of key records; like
    GnuPG it accepts any number of primary keys and any number of sub-keys
    under one key, and a sub-key carries the user ids of the key it was added
    to.  The token is a table from slot number to the imported material and
    its access policy.  Two switches inject faults: a key generation backend
    that refuses to add sub-keys, and a token that is not attached. *)

Module Ref.

Local Open Scope string_scope.

Inductive Status : Type := Active | Revoked.

Record KeyRec : Type := {
  k_id : string;
  k_parent : option string;
  k_uids : list string;
  k_algo : string;
  k_usage : string;
  k_expire : string;
  k_status : Status
}.

Record SlotBinding : Type := {
  sb_material : string;
  sb_pin : PIN_POLICY;
  sb_touch : TOUCH_POLICY
}.

Record State : Type := {
  keys : list KeyRec;
  next_id : N;
  slots : list (Z * SlotBinding);
  files : list (string * string);
  pin : string;
  puk : string;
  add_key_fails : bool;
  token_attached : bool
}.

Definition is_active (k : KeyRec) : bool :=
  match k_status k with Active => true | Revoked => false end.

Definition has_key (id : string) (s : State) : bool :=
  existsb (fun k => (k_id k =? id)%string) (keys s).

Definition find_key (id : string) (s : State) : option KeyRec :=
  find (fun k => (k_id k =? id)%string) (keys s).

(** The Active keys bound to a user id. *)
Definition active_for (uid : string) (s : State) : list string :=
  map k_id
    (filter (fun k => is_active k && existsb (String.eqb uid) (k_uids k))
            (keys s)).

Definition with_keys (s : State) (ks : list KeyRec) (n : N) : State :=
  {| keys := ks; next_id := n; slots := slots s; files := files s;
     pin := pin s; puk := puk s; add_key_fails := add_key_fails s;
     token_attached := token_attached s |}.

Definition with_token (s : State) (sl : list (Z * SlotBinding))
    (p q : string) : State :=
  {| keys := keys s; next_id := next_id s; slots := sl; files := files s;
     pin := p; puk := q; add_key_fails := add_key_fails s;
     token_attached := token_attached s |}.

Definition with_files (s : State) (fs : list (string * string)) : State :=
  {| keys := keys s; next_id := next_id s; slots := slots s; files := fs;
     pin := pin s; puk := puk s; add_key_fails := add_key_fails s;
     token_attached := token_attached s |}.

Definition fresh (prefix : string) (s : State) : string :=
  prefix ++ PyStr.str_int (Z.of_N (next_id s)).

Definition revoke_in (id : string) (ks : list KeyRec) : list KeyRec :=
  map (fun k =>
         if (k_id k =? id)%string
         then {| k_id := k_id k; k_parent := k_parent k; k_uids := k_uids k;
                 k_algo := k_algo k; k_usage := k_usage k;
                 k_expire := k_expire k; k_status := Revoked |}
         else k)
      ks.

Definition render_param (p : string * pyval) : string :=
  fst p ++ ": "
  ++ match snd p with PStr v => v | PInt z => PyStr.str_int z end.

Definition gen_key_input (params : list (string * pyval)) (s : State)
  : result string * State :=
  (Ok (PyStr.join "; " (map render_param params)), s).

(** A new primary key; the request text is kept whole as its user id. *)
Definition gen_key (key_input : string) (s : State) : result GenKey * State :=
  let id := fresh "M" s in
  (Ok {| gk_truthy := true; fingerprint := id |},
   with_keys s
     (keys s ++ [ {| k_id := id; k_parent := None; k_uids := [key_input];
                     k_algo := "rsa4096"; k_usage := "cert"; k_expire := "0";
                     k_status := Active |} ])%list
     (next_id s + 1)).

Definition export_keys (key : string) (secret : bool) (s : State)
  : result string * State :=
  (Ok (if has_key key s
       then (if secret then "SECRET:" else "PUBLIC:") ++ key
       else ""), s).

Definition gen_revoke (key reason text : string) (s : State)
  : result string * State :=
  (Ok ("REVOCATION:" ++ key), s).

Definition run_command (prog : string) (args : list string) (s : State)
  : result CompletedProcess * State :=
  match args with
  | ["--quick-add-key"; fpr; algo; usage; expire] =>
      match find_key fpr s with
      | Some parent =>
          if add_key_fails s
          then (Ok {| returncode := 2; stdout := "";
                      stderr := "gpg: key generation failed" |}, s)
          else
            let id := fresh "S" s in
            (Ok {| returncode := 0; stdout := "gpg: added sub-key " ++ id;
                   stderr := "" |},
             with_keys s
               (keys s ++ [ {| k_id := id; k_parent := Some fpr;
                               k_uids := k_uids parent; k_algo := algo;
                               k_usage := usage; k_expire := expire;
                               k_status := Active |} ])%list
               (next_id s + 1))
      | None =>
          (Ok {| returncode := 2; stdout := "";
                 stderr := "gpg: key not found" |}, s)
      end
  | ["--quick-revoke"; id] =>
      if has_key id s
      then (Ok {| returncode := 0; stdout := ""; stderr := "" |},
            with_keys s (revoke_in id (keys s)) (next_id s))
      else (Ok {| returncode := 2; stdout := "";
                  stderr := "gpg: key not found" |}, s)
  | _ =>
      (Ok {| returncode := 2; stdout := ""; stderr := "gpg: invalid option" |},
       s)
  end.

Definition signature_of (key message : string) : string :=
  "SIG:" ++ key ++ ":" ++ message.

(** Signing with a key that is missing or not Active yields no data. *)
Definition sign (message key : string) (detach : bool) (s : State)
  : result Sign * State :=
  match find_key key s with
  | Some k =>
      if is_active k
      then (Ok {| data := signature_of key message |}, s)
      else (Ok {| data := "" |}, s)
  | None => (Ok {| data := "" |}, s)
  end.

Definition verify_data (sig message : string) (s : State)
  : result bool * State :=
  (Ok (existsb
         (fun k => is_active k && (sig =? signature_of (k_id k) message)%string)
         (keys s)), s).

Definition list_keys (ids : list string) (secret : bool) (s : State)
  : result (list KeyInfo) * State :=
  (Ok (map (fun k => {| keyid := k_id k; uids := k_uids k |})
           (filter (fun k => existsb (String.eqb (k_id k)) ids) (keys s))),
   s).

Definition Controller (s : State) : result handle * State :=
  if token_attached s then (Ok O, s)
  else (Raise (ExternalError "No YubiKey detected"), s).

Fixpoint bind_slot (slot : Z) (b : SlotBinding) (sl : list (Z * SlotBinding))
  : list (Z * SlotBinding) :=
  match sl with
  | [] => [(slot, b)]
  | (n, b') :: sl' =>
      if (n =? slot)%Z then (slot, b) :: sl' else (n, b') :: bind_slot slot b sl'
  end.

Definition slot_binding (slot : Z) (s : State) : option SlotBinding :=
  option_map snd (find (fun e => (fst e =? slot)%Z) (slots s)).

(** Importing overwrites whatever the slot held. *)
Definition import_key (h : handle) (slot : Z) (key_data : string)
    (pin_policy : PIN_POLICY) (touch_policy : TOUCH_POLICY) (s : State)
  : result unit * State :=
  if token_attached s
  then (Ok tt,
        with_token s
          (bind_slot slot {| sb_material := key_data; sb_pin := pin_policy;
                             sb_touch := touch_policy |} (slots s))
          (pin s) (puk s))
  else (Raise (ExternalError "No YubiKey detected"), s).

Definition open_write (path content : string) (s : State)
  : result unit * State :=
  (Ok tt, with_files s ((path, content) :: files s)).

(** [ykman piv reset] restores the factory credentials; the two change
    commands succeed only when the current credential is supplied. *)
Definition subprocess_run (args : list string) (s : State) : result Z * State :=
  if negb (token_attached s) then (Ok 1%Z, s)
  else
    match args with
    | ["ykman"; "piv"; "reset"; "-f"] =>
        (Ok 0%Z, with_token s [] "123456" "12345678")
    | ["ykman"; "piv"; "access"; "change-pin"; "-P"; old; "-n"; new] =>
        if (old =? pin s)%string
        then (Ok 0%Z, with_token s (slots s) new (puk s))
        else (Ok 1%Z, s)
    | ["ykman"; "piv"; "access"; "change-puk"; "-p"; old; "-n"; new] =>
        if (old =? puk s)%string
        then (Ok 0%Z, with_token s (slots s) (pin s) new)
        else (Ok 1%Z, s)
    | _ => (Ok 2%Z, s)
    end.

Definition backend : Backend State := {|
  gpg_gen_key_input := gen_key_input;
  gpg_gen_key := gen_key;
  gpg_export_keys := export_keys;
  gpg_gen_revoke := gen_revoke;
  gpg_run_command := run_command;
  gpg_sign := sign;
  gpg_verify_data := verify_data;
  gpg_list_keys := list_keys;
  piv_Controller := Controller;
  piv_import_key := import_key;
  os_open_write := open_write;
  os_subprocess_run := subprocess_run
|}.

(** An empty keyring with a blank token attached. *)
Definition empty : State := {|
  keys := []; next_id := 1; slots := []; files := [];
  pin := "123456"; puk := "12345678";
  add_key_fails := false; token_attached := true
|}.

Definition master_M1 : KeyRec := {|
  k_id := "M1"; k_parent := None;
  k_uids := ["YubiKey Network Master <master@yubikey-network.local>"];
  k_algo := "rsa4096"; k_usage := "cert"; k_expire := "0"; k_status := Active
|}.

Definition device_uid : string :=
  "Device dev-42 <device-dev-42@yubikey-network.local>".

Definition device_S1 : KeyRec := {|
  k_id := "S1"; k_parent := Some "M1"; k_uids := [device_uid];
  k_algo := "nistp256"; k_usage := "sign"; k_expire := "1y"; k_status := Active
|}.

(** A keyring holding the master key only. *)
Definition ring_master : State := with_keys empty [master_M1] 2.

(** A keyring holding the master key and one Active key of device dev-42. *)
Definition ring_device : State := with_keys empty [master_M1; device_S1] 2.

(** The same keyring in front of a backend that refuses to add sub-keys. *)
Definition ring_device_faulty : State := {|
  keys := [master_M1; device_S1]; next_id := 2; slots := []; files := [];
  pin := "123456"; puk := "12345678";
  add_key_fails := true; token_attached := true
|}.

End Ref.

(** ** The policy table and what a key-generation request asks for *)

Inductive EntityClass : Type := Device | Router.

Inductive Usage : Type := USign | UAuthenticate | UEncrypt.

(** The fixed policy table of the lifecycle orchestrator. *)
Definition policy_curve_bits (c : EntityClass) : N :=
  match c with Device => 256 | Router => 384 end.

Definition policy_usage (c : EntityClass) : list Usage :=
  match c with
  | Device => [USign; UAuthenticate]
  | Router => [USign; UAuthenticate; UEncrypt]
  end.

Definition policy_expiry_months (c : EntityClass) : N :=
  match c with Device => 12 | Router => 6 end.

(** The generator of each class, and the value it passes as [key_type] to
    [import_key_to_yubikey]. *)
Definition generate_subkey {St} (B : Backend St) (c : EntityClass)
  : string -> string -> M St (option string) :=
  match c with
  | Device => generate_device_subkey B
  | Router => generate_router_subkey B
  end.

Definition key_params_of (c : EntityClass) : string -> list (string * pyval) :=
  match c with
  | Device => device_key_params
  | Router => router_key_params
  end.

Definition key_type_of (c : EntityClass) : string :=
  match c with Device => "device" | Router => "router" end.

(** PIV slot numbers: 9a is the authentication slot, 9c the signing slot. *)
Definition PIV_AUTHENTICATION : Z := 154.
Definition PIV_SIGNATURE : Z := 156.

Definition policy_slot (c : EntityClass) : Z :=
  match c with Device => PIV_AUTHENTICATION | Router => PIV_SIGNATURE end.

(** Reading a [--quick-add-key] request the way gpg does: the curve name, the
    comma-separated usage list, and an expiry of the form [<n>y] or [<n>m]. *)
Definition digit_of (c : ascii) : option N :=
  let n := N_of_ascii c in
  if ((48 <=? n) && (n <=? 57))%N then Some (n - 48)%N else None.

Fixpoint parse_dec_from (acc : N) (s : string) : option N :=
  match s with
  | EmptyString => Some acc
  | String c s' =>
      match digit_of c with
      | Some d => parse_dec_from (10 * acc + d)%N s'
      | None => None
      end
  end.

Definition parse_dec (s : string) : option N :=
  match s with
  | EmptyString => None
  | _ => parse_dec_from 0%N s
  end.

Definition curve_bits (algo : string) : option N :=
  if prefix "nistp" algo
  then parse_dec (substring 5 (String.length algo - 5) algo)
  else None.

Definition expire_months (e : string) : option N :=
  let n := String.length e in
  match parse_dec (substring 0 (n - 1) e) with
  | Some k =>
      if (substring (n - 1) 1 e =? "y")%string then Some (12 * k)%N
      else if (substring (n - 1) 1 e =? "m")%string then Some k
      else None
  | None => None
  end.

Fixpoint split_on_from (sep : ascii) (cur s : string) : list string :=
  match s with
  | EmptyString => [cur]
  | String c s' =>
      if Ascii.eqb c sep then cur :: split_on_from sep "" s'
      else split_on_from sep (cur ++ String c "") s'
  end.

Definition usage_of_word (w : string) : option Usage :=
  if (w =? "sign")%string then Some USign
  else if (w =? "auth")%string then Some UAuthenticate
  else if (w =? "encr")%string || (w =? "encrypt")%string then Some UEncrypt
  else None.

Fixpoint usages_of_words (ws : list string) : option (list Usage) :=
  match ws with
  | [] => Some []
  | w :: ws' =>
      match usage_of_word w, usages_of_words ws' with
      | Some u, Some us => Some (u :: us)
      | _, _ => None
      end
  end.

Definition usage_set (u : string) : option (list Usage) :=
  usages_of_words (split_on_from "," "" u).

(** The ["Key-Usage"] entry of a [key_params] dictionary. *)
Definition declared_usage (params : list (string * pyval)) : option string :=
  match dict_get "Key-Usage" params with
  | Some (PStr u) => Some u
  | _ => None
  end.

(** ** Observing a run *)

(** The calls a run adds to the trace. *)
Definition events_of {St A} (m : M St A) (w : World St) : list event :=
  skipn (List.length (trace w)) (trace (snd (m w))).

Definition is_token_event (ev : event) : bool :=
  match ev with
  | EController | EImportKey _ _ _ _ _ => true
  | _ => false
  end.

Definition is_gen_key (ev : event) : bool :=
  match ev with EGenKey _ => true | _ => false end.

Definition is_list_keys (ev : event) : bool :=
  match ev with EListKeys _ _ => true | _ => false end.

(** An import as the policy table prescribes it for [key_type]. *)
Definition import_follows_policy (key_type : string) (ev : event) : bool :=
  match ev with
  | EImportKey _ slot _ PIN_ONCE TOUCH_ALWAYS =>
      ((key_type =? "device")%string && (slot =? PIV_AUTHENTICATION)%Z)
      || ((key_type =? "router")%string && (slot =? PIV_SIGNATURE)%Z)
  | EImportKey _ _ _ _ _ => false
  | _ => true
  end.

(** [rotate_key] from the point where the class has been decided and the
    generator call [gen] is about to run: generate, revoke the old key, log,
    return what generation returned. *)
Definition rotate_with {St} (B : Backend St) (key_id : string)
    (gen : M St (option string)) : M St (option string) :=
  try_except
    (new_key_id <- gen ;;
     gpg_CALL_run_command B "gpg" ["--quick-revoke"; key_id] ;;;
     log INFO ("Rotated key " ++ key_id ++ " to " ++ str_opt new_key_id) ;;;
     ret new_key_id)
    (fun e =>
       log ERROR ("Failed to rotate key: " ++ str_exn e) ;;;
       ret None).

(** The [except] branch of [rotate_key]: log and return [None]. *)
Definition rotate_failed {St} (e : exn) : M St (option string) :=
  log ERROR ("Failed to rotate key: " ++ str_exn e) ;;;
  ret None.

(** The world right after a collaborator answered a call. *)
Definition after_call {St} (ev : event) (s' : St) (w : World St) : World St :=
  {| ext := s'; trace := trace w ++ [ev]; logs := logs w;
     self_yubikey := self_yubikey w |}.

(** ** Concrete runs on the reference backend *)

Module Scenario.

Definition w_empty : World Ref.State := init_world Ref.empty.
Definition w_master : World Ref.State := init_world Ref.ring_master.
Definition w_device : World Ref.State := init_world Ref.ring_device.
Definition w_device_faulty : World Ref.State :=
  init_world Ref.ring_device_faulty.

(** A router whose entity id contains the word "device". *)
Definition router_uid : string :=
  "Router device7 <router-device7@yubikey-network.local>".

Definition router_S1 : Ref.KeyRec := {|
  Ref.k_id := "S1"; Ref.k_parent := Some "M1"; Ref.k_uids := [router_uid];
  Ref.k_algo := "nistp384"; Ref.k_usage := "sign"; Ref.k_expire := "6m";
  Ref.k_status := Ref.Active
|}.

Definition w_router : World Ref.State :=
  init_world (Ref.with_keys Ref.empty [Ref.master_M1; router_S1] 2).

(** A deployment configuration with final credentials. *)
Definition config : Config :=
  [("yubikey", [("pin", PStr "481516"); ("puk", PStr "23421337")])].

(** The master-only keyring after a first device key was generated. *)
Definition w_first_subkey : World Ref.State :=
  snd (generate_device_subkey Ref.backend "M1" "dev-42" w_master).

(** The empty keyring after a first master key was generated. *)
Definition w_first_master : World Ref.State :=
  snd (generate_master_key Ref.backend w_empty).

(** Device key S1 imported into the token. *)
Definition w_provisioned : World Ref.State :=
  snd (import_key_to_yubikey Ref.backend "S1" "device" w_device).

(** Device key S1 revoked. *)
Definition w_revoked : World Ref.State :=
  init_world
    (Ref.with_keys Ref.empty
       (Ref.revoke_in "S1" [Ref.master_M1; Ref.device_S1]) 2).

End Scenario.

(** ** Provisioning commands of [setup_yubikey] *)

(** The credentials a PIV applet has after [ykman piv reset]. *)
Definition FACTORY_PIN : string := "123456".
Definition FACTORY_PUK : string := "12345678".

Definition reset_command : event :=
  ESubprocessRun ["ykman"; "piv"; "reset"; "-f"].

Definition change_pin_command (current new : string) : event :=
  ESubprocessRun
    ["ykman"; "piv"; "access"; "change-pin"; "-P"; current; "-n"; new].

Definition change_puk_command (current new : string) : event :=
  ESubprocessRun
    ["ykman"; "piv"; "access"; "change-puk"; "-p"; current; "-n"; new].

(** [config[section][k]] when it is present and a string. *)
Definition config_str (config : Config) (section k : string) : option string :=
  match dict_get section config with
  | Some d => match dict_get k d with Some (PStr s) => Some s | _ => None end
  | None => None
  end.

(** The arguments of every external command of a run, flattened. *)
Definition command_words (evs : list event) : list string :=
  flat_map (fun ev => match ev with ESubprocessRun args => args | _ => [] end)
           evs.

(** ** Words of a split string *)

Fixpoint no_space (s : string) : bool :=
  match s with
  | EmptyString => true
  | String c s' => negb (PyStr.is_space c) && no_space s'
  end.

(** A non-empty string without whitespace. *)
Definition is_word (s : string) : bool :=
  negb (PyStr.is_empty s) && no_space s.

(** ** Faulty variants of a backend *)

Module Fault.

Section Override.

Context {St : Type} (B : Backend St).

(** [B] with another answer to [gpg.run_command]. *)
Definition set_run_command
    (f : string -> list string -> St -> result CompletedProcess * St)
  : Backend St := {|
  gpg_gen_key_input := gpg_gen_key_input St B;
  gpg_gen_key := gpg_gen_key St B;
  gpg_export_keys := gpg_export_keys St B;
  gpg_gen_revoke := gpg_gen_revoke St B;
  gpg_run_command := f;
  gpg_sign := gpg_sign St B;
  gpg_verify_data := gpg_verify_data St B;
  gpg_list_keys := gpg_list_keys St B;
  piv_Controller := piv_Controller St B;
  piv_import_key := piv_import_key St B;
  os_open_write := os_open_write St B;
  os_subprocess_run := os_subprocess_run St B
|}.

(** [B] with another answer to [gpg.gen_key]. *)
Definition set_gen_key (f : string -> St -> result GenKey * St)
  : Backend St := {|
  gpg_gen_key_input := gpg_gen_key_input St B;
  gpg_gen_key := f;
  gpg_export_keys := gpg_export_keys St B;
  gpg_gen_revoke := gpg_gen_revoke St B;
  gpg_run_command := gpg_run_command St B;
  gpg_sign := gpg_sign St B;
  gpg_verify_data := gpg_verify_data St B;
  gpg_list_keys := gpg_list_keys St B;
  piv_Controller := piv_Controller St B;
  piv_import_key := piv_import_key St B;
  os_open_write := os_open_write St B;
  os_subprocess_run := os_subprocess_run St B
|}.

(** [B] with another answer to [open(path, 'w')] and the write. *)
Definition set_open_write (f : string -> string -> St -> result unit * St)
  : Backend St := {|
  gpg_gen_key_input := gpg_gen_key_input St B;
  gpg_gen_key := gpg_gen_key St B;
  gpg_export_keys := gpg_export_keys St B;
  gpg_gen_revoke := gpg_gen_revoke St B;
  gpg_run_command := gpg_run_command St B;
  gpg_sign := gpg_sign St B;
  gpg_verify_data := gpg_verify_data St B;
  gpg_list_keys := gpg_list_keys St B;
  piv_Controller := piv_Controller St B;
  piv_import_key := piv_import_key St B;
  os_open_write := f;
  os_subprocess_run := os_subprocess_run St B
|}.

(** [B] with another answer to [subprocess.run]. *)
Definition set_subprocess_run (f : list string -> St -> result Z * St)
  : Backend St := {|
  gpg_gen_key_input := gpg_gen_key_input St B;
  gpg_gen_key := gpg_gen_key St B;
  gpg_export_keys := gpg_export_keys St B;
  gpg_gen_revoke := gpg_gen_revoke St B;
  gpg_run_command := gpg_run_command St B;
  gpg_sign := gpg_sign St B;
  gpg_verify_data := gpg_verify_data St B;
  gpg_list_keys := gpg_list_keys St B;
  piv_Controller := piv_Controller St B;
  piv_import_key := piv_import_key St B;
  os_open_write := os_open_write St B;
  os_subprocess_run := f
|}.

End Override.

(** The reference keyring in front of a gpg that refuses to revoke: the
    command answers with return code 2 and changes nothing. *)
Definition revoke_refused : Backend Ref.State :=
  set_run_command Ref.backend
    (fun prog args s =>
       match args with
       | ["--quick-revoke"; _] =>
           (Ok {| returncode := 2; stdout := "";
                  stderr := "gpg: revocation failed" |}, s)
       | _ => Ref.run_command prog args s
       end).

(** The reference keyring in front of a binding whose revocation call
    raises. *)
Definition revoke_raises : Backend Ref.State :=
  set_run_command Ref.backend
    (fun prog args s =>
       match args with
       | ["--quick-revoke"; _] => (Raise (ExternalError "gpg: timeout"), s)
       | _ => Ref.run_command prog args s
       end).

(** A keyring whose key generation yields nothing: the result object is
    falsy and no key is added. *)
Definition no_key_generated : Backend Ref.State :=
  set_gen_key Ref.backend
    (fun _ s => (Ok {| gk_truthy := false; fingerprint := "" |}, s)).

(** A working directory that cannot be written to. *)
Definition read_only_directory : Backend Ref.State :=
  set_open_write Ref.backend
    (fun path _ s =>
       (Raise (ExternalError ("[Errno 13] Permission denied: '" ++ path ++ "'")),
        s)).

(** A token that is not attached. *)
Definition w_no_token : World Ref.State :=
  init_world {|
    Ref.keys := [Ref.master_M1; Ref.device_S1]; Ref.next_id := 2;
    Ref.slots := []; Ref.files := [];
    Ref.pin := "123456"; Ref.puk := "12345678";
    Ref.add_key_fails := false; Ref.token_attached := false |}.

End Fault.

(** The class [rotate_key] reads off a user id: "device" is looked for
    first, then "router". *)
Definition class_of_uid (uid : string) : option EntityClass :=
  if PyStr.contains "device" uid then Some Device
  else if PyStr.contains "router" uid then Some Router
  else None.

(** Calls that touch the token or exercise a key. *)
Definition is_token_or_probe_event (ev : event) : bool :=
  match ev with
  | EController | EImportKey _ _ _ _ _ | ESign _ _ _ | EVerifyData _ _ => true
  | _ => false
  end.

(** Whether the command line carries what its action requires. *)
Definition args_complete (args : Args) : bool :=
  match args_action args with
  | generate_master => true
  | generate_device | generate_router =>
      negb (falsy (args_master_key args)) && negb (falsy (args_id args))
  | rotate => negb (falsy (args_id args))
  end.

(** ** [deploy_yubikey_network.py]: class [NetworkDeployer]

    The deployment steps talk to the file system besides running commands.
    Their runs are recorded in a trace of their own, in which the calls the
    key scripts already know ([subprocess.run], [open] for writing) appear
    under [Key]. *)

Module Deploy.

Local Open Scope string_scope.

(** What the interpreter and the process environment provide. *)
Record Env : Type := {
  version_major : Z;             (* sys.version_info.major *)
  version_minor : Z;             (* sys.version_info.minor *)
  sys_executable : string;       (* sys.executable *)
  env_home : option string;      (* home of the current user, if known *)
  pw_home : string -> option string  (* home of a named user, if any *)
}.

(** [os.path.join(a, *p)] of [posixpath]. *)
Definition starts_with_sep (s : string) : bool :=
  match s with
  | String c _ => Ascii.eqb c "/"
  | EmptyString => false
  end.

Fixpoint ends_with_sep (s : string) : bool :=
  match s with
  | EmptyString => false
  | String c EmptyString => Ascii.eqb c "/"
  | String _ s' => ends_with_sep s'
  end.

Definition join2 (path b : string) : string :=
  if starts_with_sep b then b
  else if PyStr.is_empty path || ends_with_sep path then path ++ b
  else path ++ "/" ++ b.

Definition path_join (a : string) (p : list string) : string :=
  fold_left join2 p a.

(** [os.path.expanduser(path)] of [posixpath]. *)
Fixpoint find_sep (s : string) : nat :=
  match s with
  | EmptyString => O
  | String c s' => if Ascii.eqb c "/" then O else S (find_sep s')
  end.

Fixpoint rstrip_sep (s : string) : string :=
  match s with
  | EmptyString => EmptyString
  | String c s' =>
      let r := rstrip_sep s' in
      if Ascii.eqb c "/" && PyStr.is_empty r then EmptyString else String c r
  end.

Definition expanduser (env : Env) (path : string) : string :=
  match path with
  | String c rest =>
      if Ascii.eqb c "~" then
        let i := find_sep rest in
        let name := substring 0 i rest in
        let tail := substring i (String.length rest - i) rest in
        match (if PyStr.is_empty name then env_home env else pw_home env name)
        with
        | Some userhome =>
            let r := rstrip_sep userhome ++ tail in
            if PyStr.is_empty r then "/" else r
        | None => path
        end
      else path
  | EmptyString => path
  end.

(** A configuration value used as a path or as a command argument: anything
    but a string is refused. *)
Definition fspath (v : pyval) : result string :=
  match v with
  | PStr s => Ok s
  | PInt _ =>
      Raise (TypeError "expected str, bytes or os.PathLike object, not int")
  end.

Fixpoint fspaths (vs : list pyval) : result (list string) :=
  match vs with
  | [] => Ok []
  | v :: vs' =>
      match fspath v, fspaths vs' with
      | Ok s, Ok l => Ok (s :: l)
      | Raise e, _ => Raise e
      | _, Raise e => Raise e
      end
  end.

(** [config[section][k]]: the value, or the [KeyError] of the first missing
    key. *)
Definition config_val (config : Config) (section k : string) : result pyval :=
  match dict_get section config with
  | None => Raise (KeyError section)
  | Some d =>
      match dict_get k d with
      | None => Raise (KeyError k)
      | Some v => Ok v
      end
  end.

(** A configuration value inside an f-string. *)
Definition str_pyval (v : pyval) : string :=
  match v with
  | PStr s => s
  | PInt z => PyStr.str_int z
  end.

(** Calls of the deployment steps. *)
Inductive devent : Type :=
| Key (ev : event)
| EMakedirs (path : string)
| EChmod (path : string) (mode : Z)
| ECopy2 (src dst : string)
| EExists (path : pyval)
| ESymlink (src dst : string)
| EOpenAppend (path : string)
| EWrite (path content : string)
| EClose (path : string).

(** The file system: [os.makedirs(path, exist_ok=True)], [os.chmod],
    [shutil.copy2], [os.path.exists] (which answers and never raises),
    [os.symlink], [open(path, 'a')], [f.write] and the closing of the
    file. *)
Record OsBackend (St : Type) : Type := {
  os_makedirs : string -> St -> result unit * St;
  os_chmod : string -> Z -> St -> result unit * St;
  shutil_copy2 : string -> string -> St -> result unit * St;
  os_path_exists : pyval -> St -> bool * St;
  os_symlink : string -> string -> St -> result unit * St;
  os_open_append : string -> St -> result unit * St;
  os_write : string -> string -> St -> result unit * St;
  os_close : string -> St -> result unit * St
}.

Record DWorld (St : Type) : Type := {
  dext : St;
  dtrace : list devent;
  dlogs : list (level * string)
}.
Arguments dext {St} _.
Arguments dtrace {St} _.
Arguments dlogs {St} _.

Definition init_dworld {St} (s : St) : DWorld St :=
  {| dext := s; dtrace := []; dlogs := [] |}.

Definition DM (St A : Type) : Type := DWorld St -> result A * DWorld St.

Definition dret {St A} (a : A) : DM St A := fun w => (Ok a, w).

Definition draise {St A} (e : exn) : DM St A := fun w => (Raise e, w).

Definition dbind {St A C} (m : DM St A) (k : A -> DM St C) : DM St C :=
  fun w =>
    match m w with
    | (Ok a, w') => k a w'
    | (Raise e, w') => (Raise e, w')
    end.

Definition dtry {St A} (body : DM St A) (handler : exn -> DM St A)
  : DM St A :=
  fun w =>
    match body w with
    | (Ok a, w') => (Ok a, w')
    | (Raise e, w') => handler e w'
    end.

Definition dlift {St A} (r : result A) : DM St A := fun w => (r, w).

Definition dlog {St} (l : level) (msg : string) : DM St unit :=
  fun w =>
    (Ok tt, {| dext := dext w; dtrace := dtrace w;
               dlogs := dlogs w ++ [(l, msg)] |}).

Definition dcall {St A} (ev : devent) (f : St -> result A * St) : DM St A :=
  fun w =>
    let (r, s') := f (dext w) in
    (r, {| dext := s'; dtrace := dtrace w ++ [ev]; dlogs := dlogs w |}).

(** A run of the key-script monad inside a deployment step: its calls are
    appended under [Key], its log lines to the log. *)
Definition embed {St A} (m : M St A) : DM St A :=
  fun w =>
    let (r, w') := m {| ext := dext w; trace := []; logs := dlogs w;
                        self_yubikey := None |} in
    (r, {| dext := ext w'; dtrace := dtrace w ++ map Key (trace w');
           dlogs := logs w' |}).

Declare Scope deploy_scope.
Delimit Scope deploy_scope with deploy.
Notation "x <- m ;; k" := (dbind m (fun x => k))
  (at level 61, m at next level, right associativity) : deploy_scope.
Notation "m ;;; k" := (dbind m (fun _ => k))
  (at level 61, right associativity) : deploy_scope.
Local Open Scope deploy_scope.

(** [for x in l: body] *)
Fixpoint for_each {St A} (l : list A) (body : A -> DM St unit)
  : DM St unit :=
  match l with
  | [] => dret tt
  | x :: l' => body x ;;; for_each l' body
  end.

Section NetworkDeployer.

Context {St : Type} (B : Backend St) (O : OsBackend St).
Context (env : Env) (config : Config).

Local Abbreviation Step := (DM St).

(** [self.config[section][k]] *)
Definition cfg (section k : string) : Step pyval :=
  dlift (config_val config section k).

(** [subprocess.run(args, capture_output=True)]: the return code. *)
Definition subprocess_run (args : list string) : Step Z :=
  embed (call (ESubprocessRun args) (os_subprocess_run St B args)).

(** [subprocess.run(args, check=True)] with arguments taken from the
    configuration. *)
Definition subprocess_run_checked (args : list pyval) : Step unit :=
  match fspaths args with
  | Ok l => embed (subprocess_run_check B l)
  | Raise e => draise e
  end.

(** [with open(path, 'a') as f: body]: the file is closed on the way out,
    also when the body raises. *)
Definition with_open_append (path : string) (body : Step unit) : Step unit :=
  dcall (EOpenAppend path) (os_open_append St O path) ;;;
  (fun w =>
     match body w with
     | (Ok _, w1) => dcall (EClose path) (os_close St O path) w1
     | (Raise e, w1) =>
         match dcall (EClose path) (os_close St O path) w1 with
         | (Ok _, w2) => (Raise e, w2)
         | (Raise e', w2) => (Raise e', w2)
         end
     end).

Definition f_write (path content : string) : Step unit :=
  dcall (EWrite path content) (os_write St O path content).

Definition required_packages : list string :=
  ["postgresql"; "redis-server"; "nginx"; "supervisor"; "gpg"].

(** [check_prerequisites], lines 70-97. *)
Definition check_prerequisites : Step bool :=
  dtry
    (if (version_major env <? 3)%Z
        || ((version_major env =? 3)%Z && (version_minor env <? 8)%Z)
     then draise (Exception "Python 3.8 or higher required")
     else
       for_each required_packages
         (fun package =>
            rc <- subprocess_run ["which"; package] ;;
            if negb (rc =? 0)%Z
            then draise (Exception ("Required package not found: " ++ package))
            else dret tt) ;;;
       dlog INFO "Prerequisites check passed" ;;;
       dret true)
    (fun e =>
       dlog ERROR ("Prerequisites check failed: " ++ str_exn e) ;;;
       dret false).

(** [setup_directories], lines 99-120. *)
Definition setup_directories : Step bool :=
  dtry
    (d1 <- cfg "paths" "config_dir" ;;
     d2 <- cfg "paths" "data_dir" ;;
     d3 <- cfg "paths" "log_dir" ;;
     d4 <- cfg "paths" "backup_dir" ;;
     d5 <- cfg "paths" "ssl_dir" ;;
     for_each [d1; d2; d3; d4; d5]
       (fun directory =>
          path <- dlift (fspath directory) ;;
          dcall (EMakedirs path) (os_makedirs St O path) ;;;
          dcall (EChmod path 488) (os_chmod St O path 488)) ;;;  (* 0o750 *)
     dlog INFO "Directory setup completed" ;;;
     dret true)
    (fun e =>
       dlog ERROR ("Directory setup failed: " ++ str_exn e) ;;;
       dret false).

(** [os.path.join] on a configuration value. *)
Definition join_cfg (a : pyval) (p : list string) : Step string :=
  a' <- dlift (fspath a) ;;
  dret (path_join a' p).

(** [install_dependencies], lines 122-142. *)
Definition install_dependencies : Step bool :=
  dtry
    (venv_path <- cfg "paths" "venv_dir" ;;
     subprocess_run_checked
       [PStr (sys_executable env); PStr "-m"; PStr "venv"; venv_path] ;;;
     pip_path <- join_cfg venv_path ["bin"; "pip"] ;;
     config_dir <- cfg "paths" "config_dir" ;;
     requirements_file <- join_cfg config_dir ["requirements.txt"] ;;
     subprocess_run_checked
       [PStr pip_path; PStr "install"; PStr "-r"; PStr requirements_file] ;;;
     dlog INFO "Dependencies installation completed" ;;;
     dret true)
    (fun e =>
       dlog ERROR ("Dependencies installation failed: " ++ str_exn e) ;;;
       dret false).

Definition config_files : list (string * string) :=
  [ ("server.conf", "/etc/yubikey-network/server.conf");
    ("gpg-agent.conf", "~/.gnupg/gpg-agent.conf");
    ("supervisord.conf", "/etc/supervisor/conf.d/yubikey-network.conf");
    ("nginx.conf", "/etc/nginx/sites-available/yubikey-network") ].

Definition nginx_available : string :=
  "/etc/nginx/sites-available/yubikey-network".
Definition nginx_link : string := "/etc/nginx/sites-enabled/yubikey-network".

(** [configure_system], lines 144-173. *)
Definition configure_system : Step bool :=
  dtry
    (for_each config_files
       (fun '(src, dst) =>
          config_src <- cfg "paths" "config_src" ;;
          src_path <- join_cfg config_src [src] ;;
          let dst_path := expanduser env dst in
          dcall (ECopy2 src_path dst_path)
                (shutil_copy2 St O src_path dst_path)) ;;;
     present <- dcall (EExists (PStr nginx_link))
                  (fun s => let (b, s') := os_path_exists St O (PStr nginx_link) s
                            in (Ok b, s')) ;;
     (if negb present
      then dcall (ESymlink nginx_available nginx_link)
                 (os_symlink St O nginx_available nginx_link)
      else dret tt) ;;;
     dlog INFO "System configuration completed" ;;;
     dret true)
    (fun e =>
       dlog ERROR ("System configuration failed: " ++ str_exn e) ;;;
       dret false).

(** [setup_database], lines 175-204. *)
Definition setup_database : Step bool :=
  dtry
    (user1 <- cfg "database" "user" ;;
     user2 <- cfg "database" "user" ;;
     name1 <- cfg "database" "name" ;;
     let commands :=
       [ "createuser -s " ++ str_pyval user1;
         "createdb -O " ++ str_pyval user2 ++ " " ++ str_pyval name1 ] in
     for_each commands
       (fun cmd =>
          subprocess_run_checked
            [PStr "sudo"; PStr "-u"; PStr "postgres"; PStr "psql"; PStr "-c";
             PStr cmd]) ;;;
     config_src <- cfg "paths" "config_src" ;;
     schema_file <- join_cfg config_src ["schema.sql"] ;;
     user <- cfg "database" "user" ;;
     name <- cfg "database" "name" ;;
     subprocess_run_checked
       [PStr "psql"; PStr "-U"; user; PStr "-d"; name; PStr "-f";
        PStr schema_file] ;;;
     dlog INFO "Database setup completed" ;;;
     dret true)
    (fun e =>
       dlog ERROR ("Database setup failed: " ++ str_exn e) ;;;
       dret false).

Definition redis_conf : string := "/etc/redis/redis.conf".

Definition newline : string := String (ascii_of_nat 10) "".

(** [setup_redis], lines 206-225. *)
Definition setup_redis : Step bool :=
  dtry
    (with_open_append redis_conf
       (port <- cfg "redis" "port" ;;
        f_write redis_conf (newline ++ "port " ++ str_pyval port ++ newline) ;;;
        bind_ <- cfg "redis" "bind" ;;
        f_write redis_conf ("bind " ++ str_pyval bind_ ++ newline) ;;;
        maxmemory <- cfg "redis" "maxmemory" ;;
        f_write redis_conf ("maxmemory " ++ str_pyval maxmemory ++ newline) ;;;
        policy <- cfg "redis" "maxmemory_policy" ;;
        f_write redis_conf
          ("maxmemory-policy " ++ str_pyval policy ++ newline)) ;;;
     subprocess_run_checked [PStr "systemctl"; PStr "restart"; PStr "redis"] ;;;
     dlog INFO "Redis setup completed" ;;;
     dret true)
    (fun e =>
       dlog ERROR ("Redis setup failed: " ++ str_exn e) ;;;
       dret false).

Definition path_exists (p : pyval) : Step bool :=
  dcall (EExists p)
        (fun s => let (b, s') := os_path_exists St O p s in (Ok b, s')).

(** The command that issues a self-signed certificate. *)
Definition openssl_args (key_path cert_path : pyval) : list pyval :=
  [PStr "openssl"; PStr "req"; PStr "-x509"; PStr "-nodes";
   PStr "-days"; PStr "365";
   PStr "-newkey"; PStr "rsa:2048";
   PStr "-keyout"; key_path;
   PStr "-out"; cert_path;
   PStr "-subj"; PStr "/CN=yubikey-network"].

(** [configure_ssl], lines 227-249. *)
Definition configure_ssl : Step bool :=
  dtry
    (cert_path <- cfg "ssl" "cert_path" ;;
     key_path <- cfg "ssl" "key_path" ;;
     cert_there <- path_exists cert_path ;;
     both_there <- (if cert_there then path_exists key_path else dret false) ;;
     (if negb both_there
      then subprocess_run_checked (openssl_args key_path cert_path)
      else dret tt) ;;;
     dlog INFO "SSL configuration completed" ;;;
     dret true)
    (fun e =>
       dlog ERROR ("SSL configuration failed: " ++ str_exn e) ;;;
       dret false).

Definition unit_files : list string :=
  ["yubikey-network.service"; "yubikey-monitor.service"].

(** [configure_services], lines 279-301. *)
Definition configure_services : Step bool :=
  dtry
    (for_each unit_files
       (fun service =>
          config_src <- cfg "paths" "config_src" ;;
          src <- join_cfg config_src [service] ;;
          let dst := "/etc/systemd/system/" ++ service in
          dcall (ECopy2 src dst) (shutil_copy2 St O src dst) ;;;
          subprocess_run_checked [PStr "systemctl"; PStr "daemon-reload"] ;;;
          subprocess_run_checked
            [PStr "systemctl"; PStr "enable"; PStr service]) ;;;
     dlog INFO "Services configuration completed" ;;;
     dret true)
    (fun e =>
       dlog ERROR ("Services configuration failed: " ++ str_exn e) ;;;
       dret false).

Definition services : list string :=
  ["nginx"; "redis-server"; "postgresql"; "supervisor"; "yubikey-network";
   "yubikey-monitor"].

(** [start_services], lines 303-323. *)
Definition start_services : Step bool :=
  dtry
    (for_each services
       (fun service =>
          subprocess_run_checked
            [PStr "systemctl"; PStr "restart"; PStr service]) ;;;
     dlog INFO "Services started successfully" ;;;
     dret true)
    (fun e =>
       dlog ERROR ("Failed to start services: " ++ str_exn e) ;;;
       dret false).

(** [deploy], lines 43-68: the list of results is built in full before
    [all] looks at it. *)
Definition deploy : Step bool :=
  dtry
    (b1 <- check_prerequisites ;;
     b2 <- setup_directories ;;
     b3 <- install_dependencies ;;
     b4 <- configure_system ;;
     b5 <- setup_database ;;
     b6 <- setup_redis ;;
     b7 <- configure_ssl ;;
     b8 <- embed (setup_yubikey B config) ;;
     b9 <- configure_services ;;
     b10 <- start_services ;;
     let success := forallb (fun b => b) [b1; b2; b3; b4; b5; b6; b7; b8; b9; b10] in
     if success
     then dlog INFO "Deployment completed successfully" ;;; dret true
     else dlog ERROR "Deployment failed" ;;; dret false)
    (fun e =>
       dlog ERROR ("Deployment failed: " ++ str_exn e) ;;;
       dret false).

End NetworkDeployer.

(** The calls a step adds to the trace. *)
Definition devents_of {St A} (m : DM St A) (w : DWorld St) : list devent :=
  skipn (List.length (dtrace w)) (dtrace (snd (m w))).

(** [evs] is an initial part of [full]. *)
Definition is_prefix (evs full : list devent) : Prop :=
  exists rest, full = (evs ++ rest)%list.

(** The world right after the file system or a command answered a call. *)
Definition dafter {St} (ev : devent) (s' : St) (w : DWorld St) : DWorld St :=
  {| dext := s'; dtrace := (dtrace w ++ [ev])%list; dlogs := dlogs w |}.

(** The commands of the steps, as trace entries. *)
Definition command (args : list string) : devent := Key (ESubprocessRun args).

Definition which_probes : list devent :=
  map (fun package => command ["which"; package]) required_packages.

Definition restarts : list devent :=
  map (fun service => command ["systemctl"; "restart"; service]) services.

(** The entries of the [paths] section that name a directory to create. *)
Definition directory_keys : list string :=
  ["config_dir"; "data_dir"; "log_dir"; "backup_dir"; "ssl_dir"].

(** Creating a directory and restricting it to mode 0o750. *)
Definition make_private (dir : string) : list devent :=
  [EMakedirs dir; EChmod dir 488].

(** [python_version < (3, 8)] as the script spells it. *)
Definition python_too_old (env : Env) : bool :=
  (version_major env <? 3)%Z
  || ((version_major env =? 3)%Z && (version_minor env <? 8)%Z).

(** The calls of [configure_system] when nothing fails and the nginx site
    link is not there yet. *)
Definition system_files_calls (env : Env) (config_src : string)
  : list devent :=
  [ ECopy2 (path_join config_src ["server.conf"])
      "/etc/yubikey-network/server.conf";
    ECopy2 (path_join config_src ["gpg-agent.conf"])
      (expanduser env "~/.gnupg/gpg-agent.conf");
    ECopy2 (path_join config_src ["supervisord.conf"])
      "/etc/supervisor/conf.d/yubikey-network.conf";
    ECopy2 (path_join config_src ["nginx.conf"])
      "/etc/nginx/sites-available/yubikey-network";
    EExists (PStr "/etc/nginx/sites-enabled/yubikey-network");
    ESymlink "/etc/nginx/sites-available/yubikey-network"
      "/etc/nginx/sites-enabled/yubikey-network" ].

(** The two administrative commands of [setup_database] and the command that
    applies the schema. *)
Definition database_admin_calls (user name : string) : list devent :=
  [ command ["sudo"; "-u"; "postgres"; "psql"; "-c"; "createuser -s " ++ user];
    command ["sudo"; "-u"; "postgres"; "psql"; "-c";
             "createdb -O " ++ user ++ " " ++ name] ].

Definition database_schema_call (user name config_src : string) : devent :=
  command ["psql"; "-U"; user; "-d"; name; "-f";
           path_join config_src ["schema.sql"]].

(** The lines [setup_redis] appends to the Redis configuration. *)
Definition redis_lines (port bind_ maxmemory policy : pyval) : list string :=
  [ newline ++ "port " ++ str_pyval port ++ newline;
    "bind " ++ str_pyval bind_ ++ newline;
    "maxmemory " ++ str_pyval maxmemory ++ newline;
    "maxmemory-policy " ++ str_pyval policy ++ newline ].

Definition redis_restart : devent := command ["systemctl"; "restart"; "redis"].

Definition redis_calls (port bind_ maxmemory policy : pyval) : list devent :=
  (EOpenAppend redis_conf
   :: map (EWrite redis_conf) (redis_lines port bind_ maxmemory policy)
   ++ [EClose redis_conf; redis_restart])%list.

(** The command that issues the self-signed certificate. *)
Definition openssl_call (key_path cert_path : string) : devent :=
  command ["openssl"; "req"; "-x509"; "-nodes"; "-days"; "365";
           "-newkey"; "rsa:2048"; "-keyout"; key_path; "-out"; cert_path;
           "-subj"; "/CN=yubikey-network"].

(** The calls of [configure_services] for one unit file, and for both. *)
Definition unit_calls (config_src service : string) : list devent :=
  [ ECopy2 (path_join config_src [service]) ("/etc/systemd/system/" ++ service);
    command ["systemctl"; "daemon-reload"];
    command ["systemctl"; "enable"; service] ].

Definition service_calls (config_src : string) : list devent :=
  flat_map (unit_calls config_src) unit_files.

(** The ten steps of [deploy] in the order of its list, and their
    results when they are run one after the other, each in the world the
    previous one left. *)
Definition steps {St} (B : Backend St) (O : OsBackend St) (env : Env)
    (config : Config) : list (DM St bool) :=
  [ check_prerequisites B env;
    setup_directories O config;
    install_dependencies B env config;
    configure_system O env config;
    setup_database B config;
    setup_redis B O config;
    configure_ssl B O config;
    embed (setup_yubikey B config);
    configure_services B O config;
    start_services B ].

Fixpoint run_all {St} (l : list (DM St bool)) (w : DWorld St)
  : list (result bool) * DWorld St :=
  match l with
  | [] => ([], w)
  | m :: l' =>
      let (r, w1) := m w in
      let (rs, w2) := run_all l' w1 in
      (r :: rs, w2)
  end.

Definition is_true (r : result bool) : bool :=
  match r with
  | Ok b => b
  | Raise _ => false
  end.

(** A step that always returns a boolean and only adds to the trace. *)
Definition returns_bool {St} (m : DM St bool) : Prop :=
  forall w, exists b evs,
    m w = (Ok b, snd (m w))
    /\ dtrace (snd (m w)) = (dtrace w ++ evs)%list.

(** The factory reset of the PIV applet, as an entry of a deployment
    trace. *)
Definition piv_reset : devent := Key reset_command.

End Deploy.

(** ** A reference host for the deployment steps

    The files of the reference state double as the file system: a path
    exists when it has an entry.  Commands succeed, except that [which] fails
    for the packages listed as missing and [ykman] behaves as in the
    reference token. *)

Module RefOS.

Local Open Scope string_scope.

Definition has_file (p : string) (s : Ref.State) : bool :=
  existsb (fun e => (fst e =? p)%string) (Ref.files s).

Fixpoint put (p c : string) (fs : list (string * string))
  : list (string * string) :=
  match fs with
  | [] => [(p, c)]
  | (q, d) :: fs' =>
      if (q =? p)%string then (p, c) :: fs' else (q, d) :: put p c fs'
  end.

Definition content (p : string) (s : Ref.State) : option string :=
  dict_get p (Ref.files s).

Definition no_such_file (p : string) : exn :=
  ExternalError ("[Errno 2] No such file or directory: '" ++ p ++ "'").

Definition makedirs (p : string) (s : Ref.State) : result unit * Ref.State :=
  (Ok tt,
   if has_file p s then s else Ref.with_files s (put p "<dir>" (Ref.files s))).

Definition chmod (p : string) (mode : Z) (s : Ref.State)
  : result unit * Ref.State :=
  if has_file p s then (Ok tt, s) else (Raise (no_such_file p), s).

Definition copy2 (src dst : string) (s : Ref.State)
  : result unit * Ref.State :=
  match content src s with
  | Some c => (Ok tt, Ref.with_files s (put dst c (Ref.files s)))
  | None => (Raise (no_such_file src), s)
  end.

Definition path_exists (p : pyval) (s : Ref.State) : bool * Ref.State :=
  (match p with PStr q => has_file q s | PInt _ => false end, s).

Definition symlink (src dst : string) (s : Ref.State)
  : result unit * Ref.State :=
  if has_file dst s
  then (Raise (ExternalError ("[Errno 17] File exists: '" ++ dst ++ "'")), s)
  else (Ok tt, Ref.with_files s (put dst ("-> " ++ src) (Ref.files s))).

Definition open_append (p : string) (s : Ref.State)
  : result unit * Ref.State :=
  (Ok tt, if has_file p s then s else Ref.with_files s (put p "" (Ref.files s))).

Definition write (p c : string) (s : Ref.State) : result unit * Ref.State :=
  (Ok tt,
   Ref.with_files s
     (put p (match content p s with Some old => old ++ c | None => c end)
          (Ref.files s))).

Definition close (p : string) (s : Ref.State) : result unit * Ref.State :=
  (Ok tt, s).

Definition os : Deploy.OsBackend Ref.State := {|
  Deploy.os_makedirs := makedirs;
  Deploy.os_chmod := chmod;
  Deploy.shutil_copy2 := copy2;
  Deploy.os_path_exists := path_exists;
  Deploy.os_symlink := symlink;
  Deploy.os_open_append := open_append;
  Deploy.os_write := write;
  Deploy.os_close := close
|}.

Definition subprocess_run (missing : list string) (args : list string)
    (s : Ref.State) : result Z * Ref.State :=
  match args with
  | ["which"; p] =>
      (Ok (if existsb (String.eqb p) missing then 1%Z else 0%Z), s)
  | "ykman" :: _ => Ref.subprocess_run args s
  | _ => (Ok 0%Z, s)
  end.

(** The reference backend on a host where the packages [missing] are not
    installed. *)
Definition backend (missing : list string) : Backend Ref.State :=
  Fault.set_subprocess_run Ref.backend (subprocess_run missing).

(** The reference backend on a host where the commands [refused] (matched by
    their full argument list) end with status 1. *)
Definition backend_refusing (refused : list (list string))
  : Backend Ref.State :=
  Fault.set_subprocess_run Ref.backend
    (fun args s =>
       if existsb (fun r => if list_eq_dec string_dec r args then true else false)
                  refused
       then (Ok 1%Z, s)
       else subprocess_run [] args s).

Definition env : Deploy.Env := {|
  Deploy.version_major := 3;
  Deploy.version_minor := 11;
  Deploy.sys_executable := "/usr/bin/python3";
  Deploy.env_home := Some "/root";
  Deploy.pw_home := fun _ => None
|}.

Definition env_python37 : Deploy.Env := {|
  Deploy.version_major := 3;
  Deploy.version_minor := 7;
  Deploy.sys_executable := "/usr/bin/python3";
  Deploy.env_home := Some "/root";
  Deploy.pw_home := fun _ => None
|}.

Definition paths : list (string * pyval) :=
  [ ("config_dir", PStr "/etc/yubikey-network");
    ("data_dir", PStr "/var/lib/yubikey-network");
    ("log_dir", PStr "/var/log/yubikey-network");
    ("backup_dir", PStr "/var/backups/yubikey-network");
    ("ssl_dir", PStr "/etc/yubikey-network/ssl");
    ("venv_dir", PStr "/opt/yubikey-network/venv");
    ("config_src", PStr "/srv/config") ].

Definition config : Config :=
  [ ("paths", paths);
    ("database", [("user", PStr "yubikey"); ("name", PStr "yubikey_network")]);
    ("redis", [("port", PInt 6379); ("bind", PStr "127.0.0.1");
               ("maxmemory", PStr "256mb");
               ("maxmemory_policy", PStr "allkeys-lru")]);
    ("ssl", [("cert_path", PStr "/etc/yubikey-network/ssl/server.crt");
             ("key_path", PStr "/etc/yubikey-network/ssl/server.key")]);
    ("yubikey", [("pin", PStr "481516"); ("puk", PStr "23421337")]) ].

(** The same configuration with one entry of a section removed. *)
Definition without (section k : string) (c : Config) : Config :=
  map (fun sec =>
         if (fst sec =? section)%string
         then (fst sec, filter (fun e => negb (fst e =? k)%string) (snd sec))
         else sec)
      c.

(** A host that holds the configuration sources and nothing else. *)
Definition host : Ref.State :=
  Ref.with_files Ref.empty
    [ ("/srv/config/server.conf", "server");
      ("/srv/config/gpg-agent.conf", "agent");
      ("/srv/config/supervisord.conf", "supervisor");
      ("/srv/config/nginx.conf", "nginx");
      ("/srv/config/yubikey-network.service", "unit network");
      ("/srv/config/yubikey-monitor.service", "unit monitor") ].

(** The same host with both certificate files in place. *)
Definition host_with_certificates : Ref.State :=
  Ref.with_files host
    (("/etc/yubikey-network/ssl/server.crt", "cert")
     :: ("/etc/yubikey-network/ssl/server.key", "key")
     :: Ref.files host).

Definition w_host : Deploy.DWorld Ref.State := Deploy.init_dworld host.

Definition w_host_with_certificates : Deploy.DWorld Ref.State :=
  Deploy.init_dworld host_with_certificates.

End RefOS.

Local Open Scope py_scope.

(** ** Facts about the string model *)

Lemma prefix_iff_app (p s : string) :
  prefix p s = true <-> exists rest, s = (p ++ rest)%string.
Proof.
  revert s. induction p as [|c p IH]; intros s; simpl.
  - destruct s; split; eauto.
  - destruct s as [|d s]; simpl.
    + split; [discriminate|]. intros (rest & H). discriminate.
    + destruct (ascii_dec c d) as [->|Hne].
      * rewrite IH. split; intros (rest & H).
        -- exists rest. now rewrite H.
        -- exists rest. now inversion H.
      * split; [discriminate|]. intros (rest & H). inversion H. congruence.
Qed.

(** [contains] is the substring test of Python's [in]. *)
Lemma contains_iff (sub s : string) :
  PyStr.contains sub s = true
  <-> exists before rest, s = (before ++ sub ++ rest)%string.
Proof.
  induction s as [|c s IH]; cbn [PyStr.contains].
  - destruct (prefix sub "") eqn:Hp.
    + apply prefix_iff_app in Hp. destruct Hp as (rest & H).
      split; [intros _; exists "", rest; exact H|reflexivity].
    + split; [discriminate|]. intros (before & rest & H).
      destruct before; simpl in H.
      * assert (prefix sub "" = true) by (apply prefix_iff_app; eauto).
        congruence.
      * discriminate.
  - destruct (prefix sub (String c s)) eqn:Hp.
    + apply prefix_iff_app in Hp. destruct Hp as (rest & H).
      split; [intros _; exists "", rest; exact H|reflexivity].
    + rewrite IH. split.
      * intros (before & rest & H). exists (String c before), rest.
        simpl. now rewrite H.
      * intros (before & rest & H). destruct before as [|d before]; simpl in H.
        -- assert (prefix sub (String c s) = true)
             by (apply prefix_iff_app; eauto).
           congruence.
        -- inversion H. eauto.
Qed.

Example split_device_uid :
  PyStr.split Ref.device_uid
  = ["Device"; "dev-42"; "<device-dev-42@yubikey-network.local>"].
Proof. reflexivity. Qed.

Example split_strip_output :
  index_last (PyStr.split (PyStr.strip "  gpg: added sub-key S7
"))
  = Ok "S7".
Proof. reflexivity. Qed.

(** ** Generic facts about runs *)

Lemma events_of_app {St A} (m : M St A) (w : World St) (evs : list event) :
  trace (snd (m w)) = trace w ++ evs -> events_of m w = evs.
Proof.
  intros H. unfold events_of. rewrite H.
  rewrite skipn_app, skipn_all, Nat.sub_diag. reflexivity.
Qed.

Ltac unfold_script :=
  unfold rotate_key, rotate_with, rotate_failed, import_key_to_yubikey,
    setup_yubikey, generate_master_key, verify_key, generate_subkey,
    generate_device_subkey, generate_router_subkey, connect_yubikey,
    subprocess_run_check_cfg, subprocess_run_check, config_get,
    gpg_CALL_gen_key_input, gpg_CALL_gen_key, gpg_CALL_export_keys,
    gpg_CALL_gen_revoke, gpg_CALL_run_command, gpg_CALL_sign,
    gpg_CALL_verify_data, gpg_CALL_list_keys, piv_CALL_Controller,
    piv_CALL_import_key, open_write,
    try_except, bind, ret, raise, lift, log, call, set_yubikey, get_yubikey.

(* Split on the answer of the innermost pending collaborator call. *)
Ltac case_call :=
  match goal with
  | |- context [let (_, _) := ?f in _] =>
      lazymatch f with
      | context [match _ with _ => _ end] => fail
      | _ => let E := fresh "E" in destruct f as [[?|?] ?] eqn:E; simpl
      end
  end.

(** ** Sub-key generation *)

Section Generation.

Context {St : Type} (B : Backend St).

Lemma generate_device_subkey_events master id w :
  trace (snd (generate_device_subkey B master id w)) =
  trace w
  ++ [ERunCommand "gpg" ["--quick-add-key"; master; "nistp256"; "sign"; "1y"]].
Proof.
  unfold_script. simpl. case_call; [|reflexivity].
  destruct (returncode a =? 0)%Z; simpl; [|reflexivity].
  destruct (index_last _); reflexivity.
Qed.

Lemma generate_router_subkey_events master id w :
  trace (snd (generate_router_subkey B master id w)) =
  trace w
  ++ [ERunCommand "gpg" ["--quick-add-key"; master; "nistp384"; "sign"; "6m"]].
Proof.
  unfold_script. simpl. case_call; [|reflexivity].
  destruct (returncode a =? 0)%Z; simpl; [|reflexivity].
  destruct (index_last _); reflexivity.
Qed.

(** The generators catch everything: they return, with a key id or [None]. *)
Lemma generate_device_subkey_returns master id w :
  exists o, fst (generate_device_subkey B master id w) = Ok o.
Proof.
  unfold_script. simpl. case_call; [|eauto].
  destruct (returncode a =? 0)%Z; simpl; [|eauto].
  destruct (index_last _); simpl; eauto.
Qed.

Lemma generate_router_subkey_returns master id w :
  exists o, fst (generate_router_subkey B master id w) = Ok o.
Proof.
  unfold_script. simpl. case_call; [|eauto].
  destruct (returncode a =? 0)%Z; simpl; [|eauto].
  destruct (index_last _); simpl; eauto.
Qed.

(** When a generator returns a key id: the command was answered with return
    code 0 and the id is the last word of its output. *)
Lemma generate_device_subkey_some master id w t :
  fst (generate_device_subkey B master id w) = Ok (Some t) <->
  exists r s',
    gpg_run_command St B "gpg"
      ["--quick-add-key"; master; "nistp256"; "sign"; "1y"] (ext w)
    = (Ok r, s')
    /\ returncode r = 0%Z
    /\ index_last (PyStr.split (PyStr.strip (stdout r))) = Ok t.
Proof.
  unfold_script. simpl. case_call.
  - destruct (returncode a =? 0)%Z eqn:Hrc; simpl.
    + apply Z.eqb_eq in Hrc.
      destruct (index_last _) eqn:Hlast; simpl; split.
      * intros H; inversion H; subst. eauto.
      * intros (r & s' & H1 & _ & H3). inversion H1; subst.
        rewrite Hlast in H3. inversion H3; reflexivity.
      * discriminate.
      * intros (r & s' & H1 & _ & H3). inversion H1; subst.
        rewrite Hlast in H3. discriminate.
    + apply Z.eqb_neq in Hrc. split; [discriminate|].
      intros (r & s' & H1 & H2 & _). inversion H1; subst. contradiction.
  - split; [discriminate|]. intros (r & s' & H1 & _). discriminate.
Qed.

Lemma generate_router_subkey_some master id w t :
  fst (generate_router_subkey B master id w) = Ok (Some t) <->
  exists r s',
    gpg_run_command St B "gpg"
      ["--quick-add-key"; master; "nistp384"; "sign"; "6m"] (ext w)
    = (Ok r, s')
    /\ returncode r = 0%Z
    /\ index_last (PyStr.split (PyStr.strip (stdout r))) = Ok t.
Proof.
  unfold_script. simpl. case_call.
  - destruct (returncode a =? 0)%Z eqn:Hrc; simpl.
    + apply Z.eqb_eq in Hrc.
      destruct (index_last _) eqn:Hlast; simpl; split.
      * intros H; inversion H; subst. eauto.
      * intros (r & s' & H1 & _ & H3). inversion H1; subst.
        rewrite Hlast in H3. inversion H3; reflexivity.
      * discriminate.
      * intros (r & s' & H1 & _ & H3). inversion H1; subst.
        rewrite Hlast in H3. discriminate.
    + apply Z.eqb_neq in Hrc. split; [discriminate|].
      intros (r & s' & H1 & H2 & _). inversion H1; subst. contradiction.
  - split; [discriminate|]. intros (r & s' & H1 & _). discriminate.
Qed.

End Generation.

(** C5. For every generated sub-key the algorithm and the expiry requested
    from the backend are those of the policy table for its class: a Device
    key is requested on the 256-bit curve with a one-year expiry, a Router
    key on the 384-bit curve with a six-month expiry.  The single call a
    generator makes is [gpg --quick-add-key master algo usage expire]. *)
Theorem C5_algorithm_and_expiry_by_class :
  forall St (B : Backend St) (c : EntityClass) (master id : string) w,
  exists algo usage expire,
    events_of (generate_subkey B c master id) w
    = [ERunCommand "gpg" ["--quick-add-key"; master; algo; usage; expire]]
    /\ curve_bits algo = Some (policy_curve_bits c)
    /\ expire_months expire = Some (policy_expiry_months c).
Proof.
  intros St B c master id w. destruct c; simpl.
  - exists "nistp256", "sign", "1y". split; [|split; reflexivity].
    apply events_of_app, generate_device_subkey_events.
  - exists "nistp384", "sign", "6m". split; [|split; reflexivity].
    apply events_of_app, generate_router_subkey_events.
Qed.

(** C4 (as the code behaves).  The usage passed to the key-generation backend
    is the single capability [sign] for both classes.  It differs from the
    usage set of the policy table, which is what the [key_params] dictionary
    built by the same function declares. *)
Theorem C4_requested_usage_is_sign_only :
  forall St (B : Backend St) (c : EntityClass) (master id : string) w,
  exists algo usage expire declared,
    events_of (generate_subkey B c master id) w
    = [ERunCommand "gpg" ["--quick-add-key"; master; algo; usage; expire]]
    /\ usage_set usage = Some [USign]
    /\ usage_set usage <> Some (policy_usage c)
    /\ declared_usage (key_params_of c id) = Some declared
    /\ usage_set declared = Some (policy_usage c).
Proof.
  intros St B c master id w. destruct c; simpl.
  - exists "nistp256", "sign", "1y", "sign,auth".
    split; [apply events_of_app, generate_device_subkey_events|].
    repeat split; try reflexivity. discriminate.
  - exists "nistp384", "sign", "6m", "sign,auth,encrypt".
    split; [apply events_of_app, generate_router_subkey_events|].
    repeat split; try reflexivity. discriminate.
Qed.

(** C2 (counterexample).  On a keyring holding only the master key, two
    calls with the same device id both return a key id, and so does a call
    with the empty id: no call fails. *)
Lemma C2_duplicate_and_empty_id_accepted :
  fst (generate_device_subkey Ref.backend "M1" "dev-42" Scenario.w_master)
  = Ok (Some "S2")
  /\ fst (generate_device_subkey Ref.backend "M1" "dev-42"
            Scenario.w_first_subkey)
     = Ok (Some "S3")
  /\ map Ref.k_id
       (filter Ref.is_active
          (Ref.keys
             (ext (snd (generate_device_subkey Ref.backend "M1" "dev-42"
                          Scenario.w_first_subkey)))))
     = ["M1"; "S2"; "S3"]
  /\ fst (generate_device_subkey Ref.backend "M1" "" Scenario.w_master)
     = Ok (Some "S2")
  /\ fst (generate_router_subkey Ref.backend "M1" "" Scenario.w_master)
     = Ok (Some "S2").
Proof. vm_compute. repeat split. Qed.

(** C2 (amended).  Sub-key generation does not validate the entity id: the id
    has no influence on the run, the only call made is the key-generation
    command, and a key id is returned exactly when that command is answered
    with return code 0 and a non-blank output, whose last word is the id. *)
Theorem C2_entity_id_not_validated :
  forall St (B : Backend St) (c : EntityClass) (master id id' : string) w,
    generate_subkey B c master id w = generate_subkey B c master id' w
    /\ exists args,
         events_of (generate_subkey B c master id) w = [ERunCommand "gpg" args]
         /\ forall t,
              fst (generate_subkey B c master id w) = Ok (Some t) <->
              exists r s',
                gpg_run_command St B "gpg" args (ext w) = (Ok r, s')
                /\ returncode r = 0%Z
                /\ index_last (PyStr.split (PyStr.strip (stdout r))) = Ok t.
Proof.
  intros St B c master id id' w. split; [destruct c; reflexivity|].
  destruct c; simpl; eexists; split.
  - apply events_of_app, generate_device_subkey_events.
  - apply generate_device_subkey_some.
  - apply events_of_app, generate_router_subkey_events.
  - apply generate_router_subkey_some.
Qed.

(** Only the command line looks at the id, and only for emptiness: a missing
    or empty [--id] (or [--master-key]) ends the run with a usage error before
    any call is made. *)
Lemma main_rejects_missing_id {St} (B : Backend St) a master dbg w :
  a = generate_device \/ a = generate_router ->
  main B {| args_action := a; args_id := Some ""; args_master_key := master;
            args_debug := dbg |} w
  = (Ok (Exit 2), w)
  /\ main B {| args_action := a; args_id := None; args_master_key := master;
               args_debug := dbg |} w
     = (Ok (Exit 2), w).
Proof.
  intros [-> | ->]; unfold main, try_except, ret; simpl;
    rewrite !orb_true_r; split; reflexivity.
Qed.

(** A second run of the command line with the same id prints a second key. *)
Example main_same_id_twice :
  fst (main Ref.backend
         {| args_action := generate_device; args_id := Some "dev-42";
            args_master_key := Some "M1"; args_debug := false |}
         Scenario.w_first_subkey)
  = Ok (Printed "Generated device key: S3").
Proof. reflexivity. Qed.

(** ** Import into the token *)

Lemma import_key_to_yubikey_shape {St} (B : Backend St) key_id key_type w :
  exists evs,
    trace (snd (import_key_to_yubikey B key_id key_type w)) = trace w ++ evs
    /\ Forall (fun ev => import_follows_policy key_type ev = true) evs
    /\ match fst (import_key_to_yubikey B key_id key_type w) with
       | Ok true =>
           exists c h key_data,
             key_type = key_type_of c
             /\ evs = [EController; EExportKeys key_id true;
                       EImportKey h (policy_slot c) key_data
                         PIN_ONCE TOUCH_ALWAYS]
       | Ok false => True
       | Raise _ => False
       end.
Proof.
  unfold_script. simpl. case_call.
  - case_call.
    + destruct (key_type =? "device")%string eqn:Hd; simpl.
      * apply String.eqb_eq in Hd. subst key_type. case_call.
        -- eexists. rewrite <- !app_assoc. simpl. split; [reflexivity|].
           split; [repeat constructor|]. exists Device. simpl. eauto.
        -- eexists. rewrite <- !app_assoc. simpl. split; [reflexivity|].
           split; [repeat constructor|exact I].
      * destruct (key_type =? "router")%string eqn:Hr; simpl.
        -- apply String.eqb_eq in Hr. subst key_type. case_call.
           ++ eexists. rewrite <- !app_assoc. simpl. split; [reflexivity|].
              split; [repeat constructor|]. exists Router. simpl. eauto.
           ++ eexists. rewrite <- !app_assoc. simpl. split; [reflexivity|].
              split; [repeat constructor|exact I].
        -- eexists. rewrite <- !app_assoc. simpl. split; [reflexivity|].
           split; [repeat constructor|exact I].
    + eexists. rewrite <- !app_assoc. simpl. split; [reflexivity|].
      split; [repeat constructor|exact I].
  - eexists. split; [reflexivity|]. split; [repeat constructor|exact I].
Qed.

(** C6. Every import made by [import_key_to_yubikey] goes to the slot fixed by
    the key type, the authentication slot 9a for "device" and the signing slot
    9c for "router", with PIN policy ONCE and touch policy ALWAYS; for any
    other key type nothing is imported.  A run that reports success has made
    exactly one such import, after connecting and exporting the secret key. *)
Theorem C6_import_slot_and_policy_by_class :
  forall St (B : Backend St) (key_id key_type : string) w,
    Forall (fun ev => import_follows_policy key_type ev = true)
           (events_of (import_key_to_yubikey B key_id key_type) w)
    /\ match fst (import_key_to_yubikey B key_id key_type w) with
       | Ok true =>
           exists c h key_data,
             key_type = key_type_of c
             /\ events_of (import_key_to_yubikey B key_id key_type) w
                = [EController; EExportKeys key_id true;
                   EImportKey h (policy_slot c) key_data
                     PIN_ONCE TOUCH_ALWAYS]
       | Ok false => True
       | Raise _ => False
       end.
Proof.
  intros St B key_id key_type w.
  destruct (import_key_to_yubikey_shape B key_id key_type w)
    as (evs & Ht & Hall & Hres).
  rewrite (events_of_app _ _ _ Ht). split; [exact Hall|].
  destruct (fst (import_key_to_yubikey B key_id key_type w)) as [[|]|];
    exact Hres.
Qed.

(** ** Verification *)

(** C8. [verify_key] signs the fixed probe message with the key and then
    verifies the signature data it obtained against the same message.  It
    always returns a boolean; the boolean is [true] exactly when the signing
    call returned and the verification of its data answered true.  A raising
    or failing signature or verification gives [false]. *)
Theorem C8_verify_signs_then_verifies_probe :
  forall St (B : Backend St) (key_id : string) w,
  exists b,
    fst (verify_key B key_id w) = Ok b
    /\ (b = true <->
        exists sig s1 s2,
          gpg_sign St B test_data key_id true (ext w) = (Ok sig, s1)
          /\ gpg_verify_data St B (data sig) test_data s1 = (Ok true, s2))
    /\ (events_of (verify_key B key_id) w = [ESign test_data key_id true]
        /\ (exists e s1,
              gpg_sign St B test_data key_id true (ext w) = (Raise e, s1))
        \/ exists sig s1,
             gpg_sign St B test_data key_id true (ext w) = (Ok sig, s1)
             /\ events_of (verify_key B key_id) w
                = [ESign test_data key_id true;
                   EVerifyData (data sig) test_data]).
Proof.
  intros St B key_id w.
  destruct (gpg_sign St B test_data key_id true (ext w)) as [[sig|e] s1] eqn:Hs.
  - destruct (gpg_verify_data St B (data sig) test_data s1)
      as [[v|e] s2] eqn:Hv.
    + exists v. unfold events_of. unfold_script. simpl. rewrite Hs. simpl.
      rewrite Hv. simpl. split; [destruct v; reflexivity|]. split.
      * split.
        -- intros ->. eauto.
        -- intros (sig' & s1' & s2' & H1 & H2). inversion H1; subst.
           rewrite Hv in H2. inversion H2; reflexivity.
      * right. exists sig, s1. split; [reflexivity|].
        destruct v; simpl; rewrite <- !app_assoc, skipn_app, skipn_all,
          Nat.sub_diag; reflexivity.
    + exists false. unfold events_of. unfold_script. simpl. rewrite Hs. simpl.
      rewrite Hv. simpl. split; [reflexivity|]. split.
      * split; [discriminate|].
        intros (sig' & s1' & s2' & H1 & H2). inversion H1; subst.
        rewrite Hv in H2. discriminate.
      * right. exists sig, s1. split; [reflexivity|].
        rewrite <- !app_assoc, skipn_app, skipn_all, Nat.sub_diag; reflexivity.
  - exists false. unfold events_of. unfold_script. simpl. rewrite Hs. simpl.
    split; [reflexivity|]. split.
    + split; [discriminate|]. intros (sig' & s1' & s2' & H1 & _). discriminate.
    + left. split; [|eauto].
      rewrite skipn_app, skipn_all, Nat.sub_diag; reflexivity.
Qed.

(** ** Rotation *)

(* Split on whatever the run inspects next. *)
Ltac case_step :=
  first
    [ case_call
    | match goal with
      | |- context [match ?x with Ok _ => _ | Raise _ => _ end] =>
          lazymatch x with
          | context [match _ with _ => _ end] => fail
          | _ => let E := fresh "E" in destruct x eqn:E; simpl
          end
      | |- context [if ?b then _ else _] =>
          lazymatch b with
          | context [match _ with _ => _ end] => fail
          | _ => let E := fresh "E" in destruct b eqn:E; simpl
          end
      end ].

Lemma rotate_key_shape {St} (B : Backend St) key_id w :
  exists evs,
    trace (snd (rotate_key B key_id w)) = trace w ++ evs
    /\ Forall (fun ev => is_token_event ev = false) evs
    /\ self_yubikey (snd (rotate_key B key_id w)) = self_yubikey w
    /\ match fst (rotate_key B key_id w) with
       | Ok (Some _) =>
           exists master algo expire,
             evs = [EListKeys [key_id] true;
                    ERunCommand "gpg"
                      ["--quick-add-key"; master; algo; "sign"; expire];
                    ERunCommand "gpg" ["--quick-revoke"; key_id]]
       | Ok None => True
       | Raise _ => False
       end.
Proof.
  unfold_script. simpl.
  repeat case_step;
    (eexists; rewrite <- ?app_assoc; simpl;
     split; [try reflexivity; rewrite app_nil_r; reflexivity|];
     split; [repeat constructor|]; split; [reflexivity|];
     try exact I; eauto).
Qed.

(** C3 (counterexample).  Device key S1 sits in the authentication slot.  A
    successful rotation of S1 returns the new key S2 and revokes S1, yet the
    slot still holds the material of S1: no import of S2 took place. *)
Lemma C3_rotate_leaves_slot_on_old_key :
  fst (rotate_key Ref.backend "S1" Scenario.w_provisioned) = Ok (Some "S2")
  /\ Ref.active_for Ref.device_uid
       (ext (snd (rotate_key Ref.backend "S1" Scenario.w_provisioned)))
     = ["S2"]
  /\ option_map Ref.sb_material
       (Ref.slot_binding PIV_AUTHENTICATION
          (ext (snd (rotate_key Ref.backend "S1" Scenario.w_provisioned))))
     = Some "SECRET:S1"
  /\ fst (Ref.export_keys "S2" true
            (ext (snd (rotate_key Ref.backend "S1" Scenario.w_provisioned))))
     = Ok "SECRET:S2"
  /\ existsb is_token_event
       (events_of (rotate_key Ref.backend "S1") Scenario.w_provisioned)
     = false.
Proof. vm_compute. repeat split. Qed.

(** C3 (amended).  A rotation makes no call to the hardware token and leaves
    the token handle untouched; a rotation that returns a new key id has made
    exactly three keyring calls: the key listing, the key-generation command
    and, last, the revocation of the old key. *)
Theorem C3_rotate_makes_no_token_call :
  forall St (B : Backend St) (key_id : string) w,
    Forall (fun ev => is_token_event ev = false)
           (events_of (rotate_key B key_id) w)
    /\ self_yubikey (snd (rotate_key B key_id w)) = self_yubikey w
    /\ match fst (rotate_key B key_id w) with
       | Ok (Some _) =>
           exists master algo expire,
             events_of (rotate_key B key_id) w
             = [EListKeys [key_id] true;
                ERunCommand "gpg"
                  ["--quick-add-key"; master; algo; "sign"; expire];
                ERunCommand "gpg" ["--quick-revoke"; key_id]]
       | Ok None => True
       | Raise _ => False
       end.
Proof.
  intros St B key_id w.
  destruct (rotate_key_shape B key_id w) as (evs & Ht & Hall & Hyk & Hres).
  rewrite (events_of_app _ _ _ Ht). repeat split; assumption.
Qed.

(** Whatever the generator returns, the old key is revoked next: the
    revocation command is issued in every run that reaches generation. *)
Lemma rotate_with_revokes {St} (B : Backend St) key_id master id w :
  In (ERunCommand "gpg" ["--quick-revoke"; key_id])
     (events_of (rotate_with B key_id (generate_device_subkey B master id)) w)
  /\ In (ERunCommand "gpg" ["--quick-revoke"; key_id])
     (events_of (rotate_with B key_id (generate_router_subkey B master id)) w).
Proof.
  split; unfold events_of; unfold_script; simpl; repeat case_step;
    rewrite <- ?app_assoc, skipn_app, skipn_all, Nat.sub_diag; simpl; auto.
Qed.

(** C1 (the failing run).  Device dev-42 has exactly one Active key, S1, and
    the backend refuses to add sub-keys.  Rotating S1 returns [None], and the
    revocation of S1 has been issued all the same: no Active key is left for
    the device. *)
Theorem C1_rotate_after_failed_generation_revokes :
  Ref.active_for Ref.device_uid (ext Scenario.w_device_faulty) = ["S1"]
  /\ fst (rotate_key Ref.backend "S1" Scenario.w_device_faulty) = Ok None
  /\ events_of (rotate_key Ref.backend "S1") Scenario.w_device_faulty
     = [EListKeys ["S1"] true;
        ERunCommand "gpg" ["--quick-add-key"; "S1"; "nistp256"; "sign"; "1y"];
        ERunCommand "gpg" ["--quick-revoke"; "S1"]]
  /\ Ref.active_for Ref.device_uid
       (ext (snd (rotate_key Ref.backend "S1" Scenario.w_device_faulty)))
     = [].
Proof. vm_compute. repeat split. Qed.

(** With a backend that generates, the same rotation ends with exactly one
    Active key, the new one. *)
Example rotate_with_working_backend :
  fst (rotate_key Ref.backend "S1" Scenario.w_device) = Ok (Some "S2")
  /\ Ref.active_for Ref.device_uid
       (ext (snd (rotate_key Ref.backend "S1" Scenario.w_device)))
     = ["S2"].
Proof. vm_compute. repeat split. Qed.

(** [rotate_key] once the listing has answered: the branch is chosen by
    substring search in the first user id. *)
Lemma rotate_key_by_uid {St} (B : Backend St) key_id w info rest uid more s1 :
  gpg_list_keys St B [key_id] true (ext w) = (Ok (info :: rest), s1) ->
  uids info = uid :: more ->
  rotate_key B key_id w
  = (if PyStr.contains "device" uid then
       match nth_error (PyStr.split uid) 1 with
       | Some entity =>
           rotate_with B key_id
             (generate_device_subkey B (keyid info) entity)
             (after_call (EListKeys [key_id] true) s1 w)
       | None =>
           rotate_failed (IndexError "list index out of range")
             (after_call (EListKeys [key_id] true) s1 w)
       end
     else if PyStr.contains "router" uid then
       match nth_error (PyStr.split uid) 1 with
       | Some entity =>
           rotate_with B key_id
             (generate_router_subkey B (keyid info) entity)
             (after_call (EListKeys [key_id] true) s1 w)
       | None =>
           rotate_failed (IndexError "list index out of range")
             (after_call (EListKeys [key_id] true) s1 w)
       end
     else
       rotate_failed (ValueError ("Unknown key type for " ++ key_id))
         (after_call (EListKeys [key_id] true) s1 w)).
Proof.
  intros Hlist Huids.
  unfold rotate_key, rotate_with, rotate_failed, try_except, bind, lift, index,
    gpg_CALL_list_keys, call.
  rewrite Hlist. simpl. rewrite Huids. simpl.
  destruct (PyStr.contains "device" uid).
  - destruct (PyStr.split uid) as [|? [|? ?]]; reflexivity.
  - destruct (PyStr.contains "router" uid).
    + destruct (PyStr.split uid) as [|? [|? ?]]; reflexivity.
    + reflexivity.
Qed.

(** On every backend: when the key-generation command of a device rotation
    is answered with a non-zero return code, the rotation still issues the
    revocation of the old key, and returns [None]. *)
Lemma rotate_key_failed_generation_still_revokes {St} (B : Backend St)
    key_id w info rest uid more s1 entity r s2 :
  gpg_list_keys St B [key_id] true (ext w) = (Ok (info :: rest), s1) ->
  uids info = uid :: more ->
  PyStr.contains "device" uid = true ->
  nth_error (PyStr.split uid) 1 = Some entity ->
  gpg_run_command St B "gpg"
    ["--quick-add-key"; keyid info; "nistp256"; "sign"; "1y"] s1
  = (Ok r, s2) ->
  returncode r <> 0%Z ->
  fst (rotate_key B key_id w) = Ok None
  /\ events_of (rotate_key B key_id) w
     = [EListKeys [key_id] true;
        ERunCommand "gpg"
          ["--quick-add-key"; keyid info; "nistp256"; "sign"; "1y"];
        ERunCommand "gpg" ["--quick-revoke"; key_id]].
Proof.
  intros Hlist Huids Hdev Hent Hadd Hrc.
  unfold events_of.
  rewrite (rotate_key_by_uid B key_id w info rest uid more s1 Hlist Huids).
  rewrite Hdev, Hent.
  unfold_script. unfold after_call. simpl. rewrite Hadd. simpl.
  apply Z.eqb_neq in Hrc. rewrite Hrc. simpl.
  case_call; (split; [reflexivity|]);
    rewrite <- !app_assoc, skipn_app, skipn_all, Nat.sub_diag; reflexivity.
Qed.

(** C10. [rotate_key] decides the class of the replacement by substring
    search in the first user id of the listed key, "device" being tested
    before "router"; the entity id it passes to the generator is the second
    whitespace-separated word of that user id; when neither substring occurs
    (and when the user id has no second word) the run ends in the [except]
    branch, which makes no further call and returns [None]. *)
Theorem C10_rotate_class_by_substring :
  forall St (B : Backend St) (key_id : string) w
         (info : KeyInfo) (rest : list KeyInfo) (uid : string)
         (more : list string) (s1 : St),
    gpg_list_keys St B [key_id] true (ext w) = (Ok (info :: rest), s1) ->
    uids info = uid :: more ->
    rotate_key B key_id w
    = (if PyStr.contains "device" uid then
         match nth_error (PyStr.split uid) 1 with
         | Some entity =>
             rotate_with B key_id
               (generate_device_subkey B (keyid info) entity)
               (after_call (EListKeys [key_id] true) s1 w)
         | None =>
             rotate_failed (IndexError "list index out of range")
               (after_call (EListKeys [key_id] true) s1 w)
         end
       else if PyStr.contains "router" uid then
         match nth_error (PyStr.split uid) 1 with
         | Some entity =>
             rotate_with B key_id
               (generate_router_subkey B (keyid info) entity)
               (after_call (EListKeys [key_id] true) s1 w)
         | None =>
             rotate_failed (IndexError "list index out of range")
               (after_call (EListKeys [key_id] true) s1 w)
         end
       else
         rotate_failed (ValueError ("Unknown key type for " ++ key_id))
           (after_call (EListKeys [key_id] true) s1 w))
    /\ forall e : exn,
         fst (rotate_failed e (after_call (EListKeys [key_id] true) s1 w))
         = Ok None
         /\ trace (snd (rotate_failed e
                          (after_call (EListKeys [key_id] true) s1 w)))
            = trace w ++ [EListKeys [key_id] true].
Proof.
  intros St B key_id w info rest uid more s1 Hlist Huids.
  split; [|intros e; split; reflexivity].
  exact (rotate_key_by_uid B key_id w info rest uid more s1 Hlist Huids).
Qed.

(** The router "device7" is rotated as a device: its user id contains
    "device", so the replacement is requested on the 256-bit curve with the
    entity id "device7". *)
Lemma C10_router_named_device_rotated_as_device :
  gpg_list_keys Ref.State Ref.backend ["S1"] true (ext Scenario.w_router)
  = (Ok [ {| keyid := "S1"; uids := [Scenario.router_uid] |} ],
     ext Scenario.w_router)
  /\ PyStr.contains "router" Scenario.router_uid = true
  /\ rotate_key Ref.backend "S1" Scenario.w_router
     = rotate_with Ref.backend "S1"
         (generate_device_subkey Ref.backend "S1" "device7")
         (after_call (EListKeys ["S1"] true) (ext Scenario.w_router)
            Scenario.w_router)
  /\ events_of (rotate_key Ref.backend "S1") Scenario.w_router
     = [EListKeys ["S1"] true;
        ERunCommand "gpg" ["--quick-add-key"; "S1"; "nistp256"; "sign"; "1y"];
        ERunCommand "gpg" ["--quick-revoke"; "S1"]].
Proof.
  split; [reflexivity|]. split; [reflexivity|].
  split; [|vm_compute; reflexivity].
  exact (proj1 (C10_rotate_class_by_substring Ref.State Ref.backend "S1"
                  Scenario.w_router
                  {| keyid := "S1"; uids := [Scenario.router_uid] |} []
                  Scenario.router_uid [] (ext Scenario.w_router)
                  eq_refl eq_refl)).
Defined.

(** A revoked key does not verify: signing yields no data and the
    verification of that data answers false. *)
Example verify_key_revoked :
  fst (verify_key Ref.backend "S1" Scenario.w_revoked) = Ok false
  /\ fst (verify_key Ref.backend "S1" Scenario.w_device) = Ok true.
Proof. vm_compute. split; reflexivity. Qed.

(** ** Master key generation *)

Lemma generate_master_key_shape {St} (B : Backend St) w :
  exists evs,
    trace (snd (generate_master_key B w)) = trace w ++ evs
    /\ Forall (fun ev => is_list_keys ev = false) evs
    /\ (List.length (filter is_gen_key evs) <= 1)%nat
    /\ match fst (generate_master_key B w) with
       | Ok (Some fp) =>
           exists key_input public_key revoke_cert,
             evs = [EGenKeyInput master_key_params;
                    EGenKey key_input;
                    EExportKeys fp false;
                    EOpenWrite "master.pub" public_key;
                    EGenRevoke fp "1" "Emergency revocation certificate";
                    EOpenWrite "master-revoke.asc" revoke_cert]
       | Ok None => True
       | Raise _ => False
       end.
Proof.
  unfold_script. simpl.
  repeat case_step;
    (eexists; rewrite <- ?app_assoc; simpl;
     split; [reflexivity|];
     split; [repeat constructor|]; split; [simpl; lia|];
     try exact I; eauto).
Qed.

(** C7 (counterexample).  On an empty keyring two calls in a row both
    succeed, and the keyring then holds two Active primary keys. *)
Lemma C7_second_master_key_is_generated :
  fst (generate_master_key Ref.backend Scenario.w_empty) = Ok (Some "M1")
  /\ fst (generate_master_key Ref.backend Scenario.w_first_master)
     = Ok (Some "M2")
  /\ map Ref.k_id
       (filter Ref.is_active
          (Ref.keys
             (ext (snd (generate_master_key Ref.backend
                          Scenario.w_first_master)))))
     = ["M1"; "M2"].
Proof. vm_compute. repeat split. Qed.

(** C7 (amended).  [generate_master_key] does not look for an existing master
    key: it makes no listing call and at most one generation call, and a run
    that returns a fingerprint has made exactly one generation call, followed
    by the export of the public key and of the revocation certificate for
    that fingerprint.  It always returns, with a fingerprint or with
    [None]. *)
Theorem C7_master_key_generated_without_existence_check :
  forall St (B : Backend St) w,
    Forall (fun ev => is_list_keys ev = false)
           (events_of (generate_master_key B) w)
    /\ (List.length (filter is_gen_key (events_of (generate_master_key B) w))
        <= 1)%nat
    /\ match fst (generate_master_key B w) with
       | Ok (Some fp) =>
           exists key_input public_key revoke_cert,
             events_of (generate_master_key B) w
             = [EGenKeyInput master_key_params;
                EGenKey key_input;
                EExportKeys fp false;
                EOpenWrite "master.pub" public_key;
                EGenRevoke fp "1" "Emergency revocation certificate";
                EOpenWrite "master-revoke.asc" revoke_cert]
       | Ok None => True
       | Raise _ => False
       end.
Proof.
  intros St B w.
  destruct (generate_master_key_shape B w) as (evs & Ht & Hall & Hcnt & Hres).
  rewrite (events_of_app _ _ _ Ht). repeat split; assumption.
Qed.

(** ** Token provisioning *)

Lemma setup_yubikey_shape {St} (B : Backend St) config w :
  exists evs,
    trace (snd (setup_yubikey B config w)) = trace w ++ evs
    /\ Forall
         (fun ev =>
            ev = reset_command
            \/ (exists new,
                  config_str config "yubikey" "pin" = Some new
                  /\ ev = change_pin_command FACTORY_PIN new)
            \/ (exists new,
                  config_str config "yubikey" "puk" = Some new
                  /\ ev = change_puk_command FACTORY_PUK new))
         evs
    /\ match fst (setup_yubikey B config w) with
       | Ok true =>
           exists new_pin new_puk,
             config_str config "yubikey" "pin" = Some new_pin
             /\ config_str config "yubikey" "puk" = Some new_puk
             /\ evs = [reset_command;
                       change_pin_command FACTORY_PIN new_pin;
                       change_puk_command FACTORY_PUK new_puk]
       | Ok false => True
       | Raise _ => False
       end.
Proof.
  unfold setup_yubikey, config_get, config_str.
  destruct (dict_get "yubikey" config) as [d|].
  2:{ unfold_script. simpl. repeat case_step;
      (eexists; rewrite <- ?app_assoc; simpl; split; [reflexivity|];
       split; [repeat constructor|exact I]). }
  destruct (dict_get "pin" d) as [[new_pin|z]|].
  2,3: unfold_script; simpl; repeat case_step;
      (eexists; rewrite <- ?app_assoc; simpl; split; [reflexivity|];
       split; [repeat constructor|exact I]).
  destruct (dict_get "puk" d) as [[new_puk|z]|];
    unfold_script; simpl; repeat case_step;
    (eexists; rewrite <- ?app_assoc; simpl; split; [reflexivity|];
     split;
     [ repeat (constructor;
               [first [ left; reflexivity
                      | right; left; eexists; split; reflexivity
                      | right; right; eexists; split; reflexivity ]|]);
       constructor
     | try exact I; eauto ]).
Qed.

(** C9 (counterexample).  A provisioning run with final credentials 481516 /
    23421337 passes the factory PIN 123456 and the factory PUK 12345678 on
    the command line of its change commands. *)
Lemma C9_factory_defaults_on_command_line :
  fst (setup_yubikey Ref.backend Scenario.config Scenario.w_empty) = Ok true
  /\ events_of (setup_yubikey Ref.backend Scenario.config) Scenario.w_empty
     = [reset_command;
        change_pin_command "123456" "481516";
        change_puk_command "12345678" "23421337"]
  /\ In "123456"
        (command_words
           (events_of (setup_yubikey Ref.backend Scenario.config)
              Scenario.w_empty))
  /\ In "12345678"
        (command_words
           (events_of (setup_yubikey Ref.backend Scenario.config)
              Scenario.w_empty)).
Proof. vm_compute. repeat split; tauto. Qed.

(** C9 (amended).  [setup_yubikey] resets the PIV applet and then changes the
    PIN and the PUK, supplying the factory defaults 123456 and 12345678 as the
    current credentials and the configured values as the new ones.  No other
    external command is run, and a run that reports success has run exactly
    these three commands in this order. *)
Theorem C9_factory_defaults_only_as_current_credentials :
  forall St (B : Backend St) (config : Config) w,
    Forall
      (fun ev =>
         ev = reset_command
         \/ (exists new,
               config_str config "yubikey" "pin" = Some new
               /\ ev = change_pin_command FACTORY_PIN new)
         \/ (exists new,
               config_str config "yubikey" "puk" = Some new
               /\ ev = change_puk_command FACTORY_PUK new))
      (events_of (setup_yubikey B config) w)
    /\ match fst (setup_yubikey B config w) with
       | Ok true =>
           exists new_pin new_puk,
             config_str config "yubikey" "pin" = Some new_pin
             /\ config_str config "yubikey" "puk" = Some new_puk
             /\ events_of (setup_yubikey B config) w
                = [reset_command;
                   change_pin_command FACTORY_PIN new_pin;
                   change_puk_command FACTORY_PUK new_puk]
       | Ok false => True
       | Raise _ => False
       end.
Proof.
  intros St B config w.
  destruct (setup_yubikey_shape B config w) as (evs & Ht & Hall & Hres).
  rewrite (events_of_app _ _ _ Ht). split; assumption.
Qed.

(** ** Further properties of the key scripts *)

Lemma no_space_app_char (cur : string) (c : ascii) :
  no_space cur = true -> PyStr.is_space c = false ->
  no_space (cur ++ String c "") = true.
Proof.
  induction cur as [|d cur IH]; simpl; intros Hcur Hc.
  - now rewrite Hc.
  - apply andb_true_iff in Hcur. destruct Hcur as [Hd Hcur].
    rewrite Hd. simpl. now apply IH.
Qed.

Lemma app_char_not_empty (cur : string) (c : ascii) :
  PyStr.is_empty (cur ++ String c "") = false.
Proof. destruct cur; reflexivity. Qed.

Lemma split_from_words (s cur : string) :
  no_space cur = true ->
  Forall (fun t => is_word t = true) (PyStr.split_from cur s).
Proof.
  revert cur. induction s as [|c s IH]; intros cur Hcur; simpl.
  - destruct (PyStr.is_empty cur) eqn:He; constructor; [|constructor].
    unfold is_word. now rewrite He, Hcur.
  - destruct (PyStr.is_space c) eqn:Hc.
    + destruct (PyStr.is_empty cur) eqn:He.
      * now apply IH.
      * constructor; [|now apply IH]. unfold is_word. now rewrite He, Hcur.
    + apply IH. now apply no_space_app_char.
Qed.

Lemma index_last_In {A} (l : list A) (a : A) : index_last l = Ok a -> In a l.
Proof.
  unfold index_last. destruct (rev l) as [|b l'] eqn:Hr; [discriminate|].
  intros H. inversion H; subst. apply in_rev. rewrite Hr. now left.
Qed.

(** X1. A key id returned by sub-key generation is a single word: it is not
    empty and contains no whitespace. *)
Theorem X1_generated_id_is_a_word :
  forall St (B : Backend St) (c : EntityClass) (master id : string) w t,
    fst (generate_subkey B c master id w) = Ok (Some t) ->
    is_word t = true.
Proof.
  intros St B c master id w t H.
  assert (Hlast : exists out, index_last (PyStr.split out) = Ok t).
  { destruct c; simpl in H.
    - apply generate_device_subkey_some in H.
      destruct H as (r & s' & _ & _ & H). eauto.
    - apply generate_router_subkey_some in H.
      destruct H as (r & s' & _ & _ & H). eauto. }
  destruct Hlast as (out & Hlast). apply index_last_In in Hlast.
  pose proof (split_from_words out "" eq_refl) as Hall.
  rewrite Forall_forall in Hall. now apply Hall.
Qed.

Lemma X1_witness :
  fst (generate_subkey Ref.backend Device "M1" "dev-42" Scenario.w_master)
  = Ok (Some "S2")
  /\ is_word "S2" = true.
Proof.
  split; [reflexivity|].
  exact (X1_generated_id_is_a_word Ref.State Ref.backend Device "M1" "dev-42"
           Scenario.w_master "S2" eq_refl).
Defined.

(** X2. [connect_yubikey] never raises and makes exactly one call, the
    construction of the PIV controller.  When that succeeds it returns [True]
    and stores the new handle; when it raises it returns [False] and keeps
    whatever handle an earlier connection had stored. *)
Theorem X2_connect_yubikey_outcome :
  forall St (B : Backend St) w,
    events_of (connect_yubikey B) w = [EController]
    /\ match piv_Controller St B (ext w) with
       | (Ok h, s) =>
           fst (connect_yubikey B w) = Ok true
           /\ self_yubikey (snd (connect_yubikey B w)) = Some h
           /\ ext (snd (connect_yubikey B w)) = s
       | (Raise e, s) =>
           fst (connect_yubikey B w) = Ok false
           /\ self_yubikey (snd (connect_yubikey B w)) = self_yubikey w
           /\ ext (snd (connect_yubikey B w)) = s
       end.
Proof.
  intros St B w. unfold events_of. unfold_script. simpl.
  destruct (piv_Controller St B (ext w)) as [[h|e] s]; simpl;
    rewrite skipn_app, skipn_all, Nat.sub_diag; simpl; auto.
Qed.

(** X3. Without a token nothing leaves the keyring: when the controller
    cannot be constructed, [import_key_to_yubikey] returns [False] after that
    single call; the secret key is not exported. *)
Theorem X3_import_without_token_exports_nothing :
  forall St (B : Backend St) (key_id key_type : string) w e s,
    piv_Controller St B (ext w) = (Raise e, s) ->
    fst (import_key_to_yubikey B key_id key_type w) = Ok false
    /\ events_of (import_key_to_yubikey B key_id key_type) w = [EController]
    /\ ext (snd (import_key_to_yubikey B key_id key_type w)) = s.
Proof.
  intros St B key_id key_type w e s H. unfold events_of. unfold_script. simpl.
  rewrite H. simpl. rewrite skipn_app, skipn_all, Nat.sub_diag. auto.
Qed.

Lemma X3_witness :
  piv_Controller Ref.State Ref.backend (ext Fault.w_no_token)
  = (Raise (ExternalError "No YubiKey detected"), ext Fault.w_no_token)
  /\ fst (import_key_to_yubikey Ref.backend "S1" "device" Fault.w_no_token)
     = Ok false
  /\ events_of (import_key_to_yubikey Ref.backend "S1" "device")
       Fault.w_no_token
     = [EController].
Proof.
  split; [reflexivity|].
  pose proof (X3_import_without_token_exports_nothing Ref.State Ref.backend
                "S1" "device" Fault.w_no_token _ _ eq_refl) as H.
  split; [exact (proj1 H)|exact (proj1 (proj2 H))].
Defined.

(** X4. The key type is compared literally and only after the export: with a
    token attached, a key type other than "device" and "router" (a
    capitalised "Device", say) makes [import_key_to_yubikey] return [False]
    without any import, but the secret key has already been exported from
    the keyring. *)
Theorem X4_import_invalid_type_after_export :
  forall St (B : Backend St) (key_id key_type : string) w h s1 r s2,
    piv_Controller St B (ext w) = (Ok h, s1) ->
    gpg_export_keys St B key_id true s1 = (r, s2) ->
    key_type <> "device" -> key_type <> "router" ->
    fst (import_key_to_yubikey B key_id key_type w) = Ok false
    /\ events_of (import_key_to_yubikey B key_id key_type) w
       = [EController; EExportKeys key_id true]
    /\ ext (snd (import_key_to_yubikey B key_id key_type w)) = s2.
Proof.
  intros St B key_id key_type w h s1 r s2 Hc He Hd Hr.
  apply String.eqb_neq in Hd, Hr.
  unfold events_of. unfold_script. simpl. rewrite Hc. simpl. rewrite He.
  destruct r as [key_data|e]; simpl; rewrite ?Hd, ?Hr; simpl;
    rewrite <- !app_assoc, skipn_app, skipn_all, Nat.sub_diag; auto.
Qed.

Lemma X4_witness :
  fst (import_key_to_yubikey Ref.backend "S1" "Device" Scenario.w_device)
  = Ok false
  /\ events_of (import_key_to_yubikey Ref.backend "S1" "Device")
       Scenario.w_device
     = [EController; EExportKeys "S1" true].
Proof.
  pose proof (X4_import_invalid_type_after_export Ref.State Ref.backend
                "S1" "Device" Scenario.w_device O (ext Scenario.w_device)
                (Ok "SECRET:S1") (ext Scenario.w_device)
                eq_refl eq_refl) as H.
  assert (Hd : "Device" <> "device") by discriminate.
  assert (Hr : "Device" <> "router") by discriminate.
  specialize (H Hd Hr). split; [exact (proj1 H)|exact (proj1 (proj2 H))].
Defined.

(** X5. The exported material is not inspected: with a token attached and a
    valid key type, whatever [export_keys] returns, the empty string of an
    unknown key id included, is imported into the slot of the class, and the
    run reports success exactly when the import call returns. *)
Theorem X5_import_passes_export_unchecked :
  forall St (B : Backend St) (key_id : string) (c : EntityClass) w
         h s1 key_data s2,
    piv_Controller St B (ext w) = (Ok h, s1) ->
    gpg_export_keys St B key_id true s1 = (Ok key_data, s2) ->
    events_of (import_key_to_yubikey B key_id (key_type_of c)) w
    = [EController; EExportKeys key_id true;
       EImportKey h (policy_slot c) key_data PIN_ONCE TOUCH_ALWAYS]
    /\ (fst (import_key_to_yubikey B key_id (key_type_of c) w) = Ok true
        <-> exists s3,
              piv_import_key St B h (policy_slot c) key_data
                PIN_ONCE TOUCH_ALWAYS s2 = (Ok tt, s3)).
Proof.
  intros St B key_id c w h s1 key_data s2 Hc He.
  unfold events_of. destruct c; unfold_script; simpl; rewrite Hc; simpl;
    rewrite He; simpl.
  - destruct (piv_import_key St B h 154%Z key_data PIN_ONCE TOUCH_ALWAYS s2)
      as [[[]|e] s3] eqn:Hi; simpl;
      unfold policy_slot, PIV_AUTHENTICATION; rewrite Hi;
      rewrite <- !app_assoc, skipn_app, skipn_all, Nat.sub_diag;
      (split; [reflexivity|]); split; eauto; try discriminate.
    intros (s' & H). discriminate.
  - destruct (piv_import_key St B h 156%Z key_data PIN_ONCE TOUCH_ALWAYS s2)
      as [[[]|e] s3] eqn:Hi; simpl;
      unfold policy_slot, PIV_SIGNATURE; rewrite Hi;
      rewrite <- !app_assoc, skipn_app, skipn_all, Nat.sub_diag;
      (split; [reflexivity|]); split; eauto; try discriminate.
    intros (s' & H). discriminate.
Qed.

Lemma X5_witness :
  gpg_export_keys Ref.State Ref.backend "no-such-key" true
    (ext Scenario.w_device)
  = (Ok "", ext Scenario.w_device)
  /\ events_of (import_key_to_yubikey Ref.backend "no-such-key" "device")
       Scenario.w_device
     = [EController; EExportKeys "no-such-key" true;
        EImportKey 0 PIV_AUTHENTICATION "" PIN_ONCE TOUCH_ALWAYS]
  /\ fst (import_key_to_yubikey Ref.backend "no-such-key" "device"
            Scenario.w_device)
     = Ok true.
Proof.
  split; [reflexivity|].
  pose proof (X5_import_passes_export_unchecked Ref.State Ref.backend
                "no-such-key" Device Scenario.w_device O
                (ext Scenario.w_device) "" (ext Scenario.w_device)
                eq_refl eq_refl) as H.
  split; [exact (proj1 H)|]. apply (proj2 H). eexists. reflexivity.
Defined.

(** X6. Rotating a key the keyring does not list changes nothing: when the
    listing comes back empty, [rotate_key] returns [None] after that single
    call; nothing is generated and nothing is revoked. *)
Theorem X6_rotate_unlisted_key_does_nothing :
  forall St (B : Backend St) (key_id : string) w s1,
    gpg_list_keys St B [key_id] true (ext w) = (Ok [], s1) ->
    fst (rotate_key B key_id w) = Ok None
    /\ events_of (rotate_key B key_id) w = [EListKeys [key_id] true]
    /\ ext (snd (rotate_key B key_id w)) = s1.
Proof.
  intros St B key_id w s1 H. unfold events_of. unfold_script. simpl.
  rewrite H. simpl. rewrite skipn_app, skipn_all, Nat.sub_diag. auto.
Qed.

Lemma X6_witness :
  gpg_list_keys Ref.State Ref.backend ["no-such-key"] true
    (ext Scenario.w_device)
  = (Ok [], ext Scenario.w_device)
  /\ fst (rotate_key Ref.backend "no-such-key" Scenario.w_device) = Ok None
  /\ events_of (rotate_key Ref.backend "no-such-key") Scenario.w_device
     = [EListKeys ["no-such-key"] true].
Proof.
  split; [reflexivity|].
  pose proof (X6_rotate_unlisted_key_does_nothing Ref.State Ref.backend
                "no-such-key" Scenario.w_device _ eq_refl) as H.
  split; [exact (proj1 H)|exact (proj1 (proj2 H))].
Defined.

(** X7. The answer to the revocation command is not inspected: once the
    generator has returned a key id, [rotate_key] returns that id whenever
    the revocation call returns, whatever its return code.  A refused
    revocation therefore passes for a completed rotation. *)
Theorem X7_rotate_ignores_revocation_status :
  forall St (B : Backend St) (key_id : string) w info rest uid more s1
         c entity t w2 r s3,
    gpg_list_keys St B [key_id] true (ext w) = (Ok (info :: rest), s1) ->
    uids info = uid :: more ->
    class_of_uid uid = Some c ->
    nth_error (PyStr.split uid) 1 = Some entity ->
    generate_subkey B c (keyid info) entity
      (after_call (EListKeys [key_id] true) s1 w)
    = (Ok (Some t), w2) ->
    gpg_run_command St B "gpg" ["--quick-revoke"; key_id] (ext w2)
    = (Ok r, s3) ->
    fst (rotate_key B key_id w) = Ok (Some t)
    /\ ext (snd (rotate_key B key_id w)) = s3.
Proof.
  intros St B key_id w info rest uid more s1 c entity t w2 r s3
         Hlist Huids Hc Hent Hg Hr.
  rewrite (rotate_key_by_uid B key_id w info rest uid more s1 Hlist Huids).
  unfold class_of_uid in Hc. rewrite Hent.
  destruct (PyStr.contains "device" uid);
    [|destruct (PyStr.contains "router" uid); [|discriminate]];
    inversion Hc; subst c; simpl in Hg;
    unfold rotate_with, try_except, bind, gpg_CALL_run_command, call, log, ret;
    rewrite Hg; simpl; rewrite Hr; simpl; auto.
Qed.

Lemma X7_witness :
  fst (rotate_key Fault.revoke_refused "S1" Scenario.w_device)
  = Ok (Some "S2")
  /\ Ref.active_for Ref.device_uid
       (ext (snd (rotate_key Fault.revoke_refused "S1" Scenario.w_device)))
     = ["S1"; "S2"].
Proof.
  split; [|vm_compute; reflexivity].
  eapply (proj1 (X7_rotate_ignores_revocation_status Ref.State
                   Fault.revoke_refused "S1" Scenario.w_device
                   {| keyid := "S1"; uids := [Ref.device_uid] |} []
                   Ref.device_uid [] (ext Scenario.w_device)
                   Device "dev-42" "S2" _ _ _
                   eq_refl eq_refl eq_refl eq_refl eq_refl eq_refl)).
Defined.

(** X8. When the revocation call itself raises, [rotate_key] returns [None]
    although the replacement was generated: the caller is told the rotation
    failed while the keyring holds the new key next to the old one. *)
Theorem X8_rotate_reports_failure_after_generation :
  forall St (B : Backend St) (key_id : string) w info rest uid more s1
         c entity t w2 e s3,
    gpg_list_keys St B [key_id] true (ext w) = (Ok (info :: rest), s1) ->
    uids info = uid :: more ->
    class_of_uid uid = Some c ->
    nth_error (PyStr.split uid) 1 = Some entity ->
    generate_subkey B c (keyid info) entity
      (after_call (EListKeys [key_id] true) s1 w)
    = (Ok (Some t), w2) ->
    gpg_run_command St B "gpg" ["--quick-revoke"; key_id] (ext w2)
    = (Raise e, s3) ->
    fst (rotate_key B key_id w) = Ok None
    /\ ext (snd (rotate_key B key_id w)) = s3
    /\ trace (snd (rotate_key B key_id w))
       = trace w2 ++ [ERunCommand "gpg" ["--quick-revoke"; key_id]].
Proof.
  intros St B key_id w info rest uid more s1 c entity t w2 e s3
         Hlist Huids Hc Hent Hg Hr.
  rewrite (rotate_key_by_uid B key_id w info rest uid more s1 Hlist Huids).
  unfold class_of_uid in Hc. rewrite Hent.
  destruct (PyStr.contains "device" uid);
    [|destruct (PyStr.contains "router" uid); [|discriminate]];
    inversion Hc; subst c; simpl in Hg;
    unfold rotate_with, try_except, bind, gpg_CALL_run_command, call, log, ret;
    rewrite Hg; simpl; rewrite Hr; simpl; auto.
Qed.

Lemma X8_witness :
  fst (rotate_key Fault.revoke_raises "S1" Scenario.w_device) = Ok None
  /\ Ref.active_for Ref.device_uid
       (ext (snd (rotate_key Fault.revoke_raises "S1" Scenario.w_device)))
     = ["S1"; "S2"].
Proof.
  split; [|vm_compute; reflexivity].
  eapply (proj1 (X8_rotate_reports_failure_after_generation Ref.State
                   Fault.revoke_raises "S1" Scenario.w_device
                   {| keyid := "S1"; uids := [Ref.device_uid] |} []
                   Ref.device_uid [] (ext Scenario.w_device)
                   Device "dev-42" "S2" _ _ _
                   eq_refl eq_refl eq_refl eq_refl eq_refl eq_refl)).
Defined.

(** X9. When key generation yields a falsy result, [generate_master_key]
    stops there: it returns [None] and neither exports anything nor writes a
    file. *)
Theorem X9_master_key_not_generated :
  forall St (B : Backend St) w key_input s1 key s2,
    gpg_gen_key_input St B master_key_params (ext w) = (Ok key_input, s1) ->
    gpg_gen_key St B key_input s1 = (Ok key, s2) ->
    gk_truthy key = false ->
    fst (generate_master_key B w) = Ok None
    /\ events_of (generate_master_key B) w
       = [EGenKeyInput master_key_params; EGenKey key_input]
    /\ ext (snd (generate_master_key B w)) = s2.
Proof.
  intros St B w key_input s1 key s2 Hi Hk Ht.
  unfold events_of. unfold_script. simpl. rewrite Hi. simpl. rewrite Hk. simpl.
  rewrite Ht. simpl.
  rewrite <- !app_assoc, skipn_app, skipn_all, Nat.sub_diag. auto.
Qed.

Lemma X9_witness :
  fst (generate_master_key Fault.no_key_generated Scenario.w_empty) = Ok None
  /\ Ref.files
       (ext (snd (generate_master_key Fault.no_key_generated
                    Scenario.w_empty)))
     = [].
Proof.
  split; [|reflexivity].
  eapply (proj1 (X9_master_key_not_generated Ref.State Fault.no_key_generated
                   Scenario.w_empty _ _ _ _ eq_refl eq_refl eq_refl)).
Defined.

(** X10. A key that was generated can still be reported as a failure: when
    the public key cannot be written to [master.pub], [generate_master_key]
    returns [None] after the key has been generated and exported, and no
    revocation certificate is requested for it. *)
Theorem X10_master_key_lost_on_write_failure :
  forall St (B : Backend St) w key_input s1 key s2 public_key s3 e s4,
    gpg_gen_key_input St B master_key_params (ext w) = (Ok key_input, s1) ->
    gpg_gen_key St B key_input s1 = (Ok key, s2) ->
    gk_truthy key = true ->
    gpg_export_keys St B (fingerprint key) false s2 = (Ok public_key, s3) ->
    os_open_write St B "master.pub" public_key s3 = (Raise e, s4) ->
    fst (generate_master_key B w) = Ok None
    /\ events_of (generate_master_key B) w
       = [EGenKeyInput master_key_params; EGenKey key_input;
          EExportKeys (fingerprint key) false;
          EOpenWrite "master.pub" public_key]
    /\ ext (snd (generate_master_key B w)) = s4.
Proof.
  intros St B w key_input s1 key s2 public_key s3 e s4 Hi Hk Ht He Hw.
  unfold events_of. unfold_script. simpl. rewrite Hi. simpl. rewrite Hk. simpl.
  rewrite Ht. simpl. rewrite He. simpl. rewrite Hw. simpl.
  rewrite <- !app_assoc, skipn_app, skipn_all, Nat.sub_diag. auto.
Qed.

Lemma X10_witness :
  fst (generate_master_key Fault.read_only_directory Scenario.w_empty)
  = Ok None
  /\ map Ref.k_id
       (Ref.keys
          (ext (snd (generate_master_key Fault.read_only_directory
                       Scenario.w_empty))))
     = ["M1"].
Proof.
  split; [|reflexivity].
  eapply (proj1 (X10_master_key_lost_on_write_failure Ref.State
                   Fault.read_only_directory Scenario.w_empty
                   _ _ _ _ _ _ _ _ eq_refl eq_refl eq_refl eq_refl eq_refl)).
Defined.

Lemma main_shape {St} (B : Backend St) args w :
  exists evs o,
    main B args w = (Ok o, snd (main B args w))
    /\ trace (snd (main B args w)) = trace w ++ evs
    /\ Forall (fun ev => is_token_or_probe_event ev = false) evs
    /\ (if args_complete args
        then o <> Exit 2
        else o = Exit 2 /\ snd (main B args w) = w).
Proof.
  destruct args as [a id master dbg]. unfold main, args_complete. simpl.
  destruct a; simpl.
  - unfold_script. simpl.
    repeat case_step;
      (do 2 eexists; rewrite <- ?app_assoc; simpl;
       split; [reflexivity|]; split; [reflexivity|];
       split; [repeat constructor|discriminate]).
  - destruct (falsy master); simpl;
      [|destruct (falsy id); simpl];
      unfold_script; simpl;
      try solve [exists [], (Exit 2); rewrite app_nil_r; auto];
      repeat case_step;
      (do 2 eexists; rewrite <- ?app_assoc; simpl;
       split; [reflexivity|]; split; [reflexivity|];
       split; [repeat constructor|discriminate]).
  - destruct (falsy master); simpl;
      [|destruct (falsy id); simpl];
      unfold_script; simpl;
      try solve [exists [], (Exit 2); rewrite app_nil_r; auto];
      repeat case_step;
      (do 2 eexists; rewrite <- ?app_assoc; simpl;
       split; [reflexivity|]; split; [reflexivity|];
       split; [repeat constructor|discriminate]).
  - destruct (falsy id); simpl;
      unfold_script; simpl;
      try solve [exists [], (Exit 2); rewrite app_nil_r; auto];
      repeat case_step;
      (do 2 eexists; rewrite <- ?app_assoc; simpl;
       split; [try reflexivity|]; split; [try reflexivity; rewrite app_nil_r; reflexivity|];
       split; [repeat constructor|discriminate]).
Qed.

(** X11. The command line has no action that reaches the token or exercises
    a key: whatever the arguments, a run of [main] neither constructs a PIV
    controller nor imports, signs or verifies anything. *)
Theorem X11_main_never_touches_token :
  forall St (B : Backend St) (args : Args) w,
    Forall (fun ev => is_token_or_probe_event ev = false)
           (events_of (main B args) w).
Proof.
  intros St B args w.
  destruct (main_shape B args w) as (evs & o & _ & Ht & Hall & _).
  now rewrite (events_of_app _ _ _ Ht).
Qed.


(** ** The deployment steps *)

Lemma devents_of_app {St A} (m : Deploy.DM St A) (w : Deploy.DWorld St)
    (evs : list Deploy.devent) :
  Deploy.dtrace (snd (m w)) = Deploy.dtrace w ++ evs ->
  Deploy.devents_of m w = evs.
Proof.
  intros H. unfold Deploy.devents_of. rewrite H.
  rewrite skipn_app, skipn_all, Nat.sub_diag. reflexivity.
Qed.

Ltac unfold_deploy :=
  unfold Deploy.deploy, Deploy.check_prerequisites, Deploy.setup_directories,
    Deploy.install_dependencies, Deploy.configure_system,
    Deploy.setup_database, Deploy.setup_redis, Deploy.configure_ssl,
    Deploy.configure_services, Deploy.start_services,
    Deploy.with_open_append, Deploy.f_write, Deploy.path_exists,
    Deploy.join_cfg, Deploy.cfg, Deploy.subprocess_run_checked,
    Deploy.subprocess_run, Deploy.openssl_args,
    Deploy.required_packages, Deploy.services, Deploy.unit_files,
    Deploy.config_files;
  cbn [Deploy.for_each Deploy.fspaths Deploy.fspath];
  unfold Deploy.embed, Deploy.dtry, Deploy.dbind, Deploy.dret, Deploy.draise,
    Deploy.dlift, Deploy.dlog, Deploy.dcall,
    subprocess_run_check, call, bind, ret, raise.

(** X13. On an interpreter older than Python 3.8, [check_prerequisites]
    returns [False] at once: no package is probed and nothing is run. *)
Theorem X13_old_python_probes_nothing :
  forall St (B : Backend St) (env : Deploy.Env) w,
    Deploy.python_too_old env = true ->
    fst (Deploy.check_prerequisites B env w) = Ok false
    /\ Deploy.devents_of (Deploy.check_prerequisites B env) w = []
    /\ Deploy.dext (snd (Deploy.check_prerequisites B env w)) = Deploy.dext w.
Proof.
  intros St B env w H. unfold Deploy.devents_of.
  unfold Deploy.python_too_old in H.
  unfold Deploy.check_prerequisites, Deploy.dtry. rewrite H. simpl.
  rewrite skipn_all. auto.
Qed.

Lemma X13_witness :
  Deploy.python_too_old RefOS.env_python37 = true
  /\ fst (Deploy.check_prerequisites (RefOS.backend []) RefOS.env_python37
            RefOS.w_host)
     = Ok false
  /\ Deploy.devents_of
       (Deploy.check_prerequisites (RefOS.backend []) RefOS.env_python37)
       RefOS.w_host
     = [].
Proof.
  split; [reflexivity|].
  pose proof (X13_old_python_probes_nothing Ref.State (RefOS.backend [])
                RefOS.env_python37 RefOS.w_host eq_refl) as H.
  split; [exact (proj1 H)|exact (proj1 (proj2 H))].
Defined.

Lemma check_prerequisites_shape {St} (B : Backend St) env w :
  exists evs,
    Deploy.dtrace (snd (Deploy.check_prerequisites B env w))
    = Deploy.dtrace w ++ evs
    /\ Deploy.is_prefix evs Deploy.which_probes
    /\ match fst (Deploy.check_prerequisites B env w) with
       | Ok true =>
           evs = Deploy.which_probes /\ Deploy.python_too_old env = false
       | Ok false => True
       | Raise _ => False
       end.
Proof.
  unfold Deploy.python_too_old, Deploy.is_prefix, Deploy.which_probes.
  unfold_deploy. simpl.
  destruct ((Deploy.version_major env <? 3)%Z
            || (Deploy.version_major env =? 3)%Z
               && (Deploy.version_minor env <? 8)%Z); simpl.
  - exists []. rewrite app_nil_r.
    split; [reflexivity|]. split; [eexists; reflexivity|exact I].
  - repeat case_step;
      (eexists; rewrite <- ?app_assoc; simpl; split; [reflexivity|];
       split; [eexists; simpl; reflexivity|]; try exact I; auto).
Qed.

(** X14. [check_prerequisites] probes the required packages with [which] in
    the fixed order postgresql, redis-server, nginx, supervisor, gpg and runs
    nothing else; a run that returns [True] was made on Python 3.8 or later
    and has made all five probes. *)
Theorem X14_prerequisite_probes_in_order :
  forall St (B : Backend St) (env : Deploy.Env) w,
    Deploy.is_prefix (Deploy.devents_of (Deploy.check_prerequisites B env) w)
                     Deploy.which_probes
    /\ match fst (Deploy.check_prerequisites B env w) with
       | Ok true =>
           Deploy.devents_of (Deploy.check_prerequisites B env) w
           = Deploy.which_probes
           /\ Deploy.python_too_old env = false
       | Ok false => True
       | Raise _ => False
       end.
Proof.
  intros St B env w.
  destruct (check_prerequisites_shape B env w) as (evs & Ht & Hp & Hr).
  rewrite (devents_of_app _ _ _ Ht). split; assumption.
Qed.

(** A probe that does not answer 0 ends the check. *)
Example check_prerequisites_stops_at_missing_package :
  fst (Deploy.check_prerequisites (RefOS.backend ["nginx"]) RefOS.env
         RefOS.w_host)
  = Ok false
  /\ Deploy.devents_of
       (Deploy.check_prerequisites (RefOS.backend ["nginx"]) RefOS.env)
       RefOS.w_host
     = firstn 3 Deploy.which_probes.
Proof. vm_compute. split; reflexivity. Qed.

Lemma start_services_shape {St} (B : Backend St) w :
  exists evs,
    Deploy.dtrace (snd (Deploy.start_services B w)) = Deploy.dtrace w ++ evs
    /\ Deploy.is_prefix evs Deploy.restarts
    /\ match fst (Deploy.start_services B w) with
       | Ok true => evs = Deploy.restarts
       | Ok false => evs <> []
       | Raise _ => False
       end.
Proof.
  unfold Deploy.is_prefix, Deploy.restarts.
  unfold_deploy. simpl.
  repeat case_step;
    (eexists; rewrite <- ?app_assoc; simpl; split; [reflexivity|];
     split; [eexists; simpl; reflexivity|]; try exact I; auto;
     discriminate).
Qed.

(** X15. [start_services] restarts nginx, redis-server, postgresql,
    supervisor, yubikey-network and yubikey-monitor in this order and runs
    nothing else; a run that returns [True] has restarted all six, and every
    run attempts at least the first restart. *)
Theorem X15_services_restarted_in_order :
  forall St (B : Backend St) w,
    Deploy.is_prefix (Deploy.devents_of (Deploy.start_services B) w)
                     Deploy.restarts
    /\ match fst (Deploy.start_services B w) with
       | Ok true => Deploy.devents_of (Deploy.start_services B) w
                    = Deploy.restarts
       | Ok false => Deploy.devents_of (Deploy.start_services B) w <> []
       | Raise _ => False
       end.
Proof.
  intros St B w.
  destruct (start_services_shape B w) as (evs & Ht & Hp & Hr).
  rewrite (devents_of_app _ _ _ Ht). split; assumption.
Qed.

(** A restart that fails ends the step: the later services are left as they
    were. *)
Example start_services_stops_at_failed_restart :
  fst (Deploy.start_services
         (RefOS.backend_refusing [["systemctl"; "restart"; "postgresql"]])
         RefOS.w_host)
  = Ok false
  /\ Deploy.devents_of
       (Deploy.start_services
          (RefOS.backend_refusing [["systemctl"; "restart"; "postgresql"]]))
       RefOS.w_host
     = firstn 3 Deploy.restarts.
Proof. vm_compute. split; reflexivity. Qed.

Lemma config_str_val (config : Config) (section k v : string) :
  config_str config section k = Some v ->
  Deploy.config_val config section k = Ok (PStr v).
Proof.
  unfold config_str, Deploy.config_val.
  destruct (dict_get section config) as [d|]; [|discriminate].
  destruct (dict_get k d) as [[s|z]|]; try discriminate.
  intros H. inversion H. reflexivity.
Qed.

(** X16. [setup_directories] reads all five directory entries of the
    configuration before it touches the file system: when any of them is
    missing, it returns [False] and no directory has been created or
    changed. *)
Theorem X16_directories_all_or_nothing_on_missing_entry :
  forall St (O : Deploy.OsBackend St) (config : Config) w k e,
    In k Deploy.directory_keys ->
    Deploy.config_val config "paths" k = Raise e ->
    fst (Deploy.setup_directories O config w) = Ok false
    /\ Deploy.devents_of (Deploy.setup_directories O config) w = []
    /\ Deploy.dext (snd (Deploy.setup_directories O config w)) = Deploy.dext w.
Proof.
  intros St O config w k e Hin Hk. unfold Deploy.devents_of.
  unfold Deploy.setup_directories, Deploy.dtry, Deploy.dbind, Deploy.cfg,
    Deploy.dlift.
  destruct (Deploy.config_val config "paths" "config_dir") eqn:E1;
    [|simpl; rewrite skipn_all; auto].
  destruct (Deploy.config_val config "paths" "data_dir") eqn:E2;
    [|simpl; rewrite skipn_all; auto].
  destruct (Deploy.config_val config "paths" "log_dir") eqn:E3;
    [|simpl; rewrite skipn_all; auto].
  destruct (Deploy.config_val config "paths" "backup_dir") eqn:E4;
    [|simpl; rewrite skipn_all; auto].
  destruct (Deploy.config_val config "paths" "ssl_dir") eqn:E5;
    [|simpl; rewrite skipn_all; auto].
  exfalso. simpl in Hin.
  destruct Hin as [<-|[<-|[<-|[<-|[<-|[]]]]]]; congruence.
Qed.

Lemma X16_witness :
  Deploy.config_val (RefOS.without "paths" "ssl_dir" RefOS.config)
    "paths" "ssl_dir"
  = Raise (KeyError "ssl_dir")
  /\ fst (Deploy.setup_directories RefOS.os
            (RefOS.without "paths" "ssl_dir" RefOS.config) RefOS.w_host)
     = Ok false
  /\ Deploy.devents_of
       (Deploy.setup_directories RefOS.os
          (RefOS.without "paths" "ssl_dir" RefOS.config))
       RefOS.w_host
     = [].
Proof.
  split; [reflexivity|].
  assert (Hin : In "ssl_dir" Deploy.directory_keys)
    by (simpl; right; right; right; right; left; reflexivity).
  pose proof (X16_directories_all_or_nothing_on_missing_entry Ref.State
                RefOS.os (RefOS.without "paths" "ssl_dir" RefOS.config)
                RefOS.w_host "ssl_dir" _ Hin eq_refl) as H.
  split; [exact (proj1 H)|exact (proj1 (proj2 H))].
Defined.

(** X17. With the five directory entries in place, [setup_directories]
    creates each directory and right away sets its mode to 0o750, in the
    order config, data, log, backup, ssl, stopping at the first call that
    fails; a run that returns [True] has done so for all five. *)
Theorem X17_directories_created_with_mode_750 :
  forall St (O : Deploy.OsBackend St) (config : Config) w d1 d2 d3 d4 d5,
    config_str config "paths" "config_dir" = Some d1 ->
    config_str config "paths" "data_dir" = Some d2 ->
    config_str config "paths" "log_dir" = Some d3 ->
    config_str config "paths" "backup_dir" = Some d4 ->
    config_str config "paths" "ssl_dir" = Some d5 ->
    Deploy.is_prefix
      (Deploy.devents_of (Deploy.setup_directories O config) w)
      (flat_map Deploy.make_private [d1; d2; d3; d4; d5])
    /\ match fst (Deploy.setup_directories O config w) with
       | Ok true =>
           Deploy.devents_of (Deploy.setup_directories O config) w
           = flat_map Deploy.make_private [d1; d2; d3; d4; d5]
       | Ok false => True
       | Raise _ => False
       end.
Proof.
  intros St O config w d1 d2 d3 d4 d5 H1 H2 H3 H4 H5.
  apply config_str_val in H1, H2, H3, H4, H5.
  assert (exists evs,
            Deploy.dtrace (snd (Deploy.setup_directories O config w))
            = Deploy.dtrace w ++ evs
            /\ Deploy.is_prefix evs
                 (flat_map Deploy.make_private [d1; d2; d3; d4; d5])
            /\ match fst (Deploy.setup_directories O config w) with
               | Ok true =>
                   evs = flat_map Deploy.make_private [d1; d2; d3; d4; d5]
               | Ok false => True
               | Raise _ => False
               end) as (evs & Ht & Hp & Hr).
  { unfold Deploy.is_prefix. unfold_deploy. rewrite H1, H2, H3, H4, H5. simpl.
    repeat case_step;
      (eexists; rewrite <- ?app_assoc; simpl; split; [reflexivity|];
       split; [eexists; simpl; reflexivity|]; try exact I; auto). }
  rewrite (devents_of_app _ _ _ Ht). split; assumption.
Qed.

Lemma X17_witness :
  fst (Deploy.setup_directories RefOS.os RefOS.config RefOS.w_host) = Ok true
  /\ Deploy.devents_of (Deploy.setup_directories RefOS.os RefOS.config)
       RefOS.w_host
     = flat_map Deploy.make_private
         ["/etc/yubikey-network"; "/var/lib/yubikey-network";
          "/var/log/yubikey-network"; "/var/backups/yubikey-network";
          "/etc/yubikey-network/ssl"].
Proof.
  split; [reflexivity|].
  pose proof (X17_directories_created_with_mode_750 Ref.State RefOS.os
                RefOS.config RefOS.w_host _ _ _ _ _
                eq_refl eq_refl eq_refl eq_refl eq_refl) as H.
  exact (proj2 H).
Defined.

(** X18. [install_dependencies] creates the virtual environment with the
    running interpreter and then lets the [pip] of that environment install
    [requirements.txt] from the configuration directory; [pip] is run only
    after the creation returned status 0, and a run that returns [True] has
    run both commands. *)
Theorem X18_pip_runs_only_after_venv :
  forall St (B : Backend St) (env : Deploy.Env) (config : Config) w
         venv config_dir,
    config_str config "paths" "venv_dir" = Some venv ->
    config_str config "paths" "config_dir" = Some config_dir ->
    Deploy.is_prefix
      (Deploy.devents_of (Deploy.install_dependencies B env config) w)
      [Deploy.command [Deploy.sys_executable env; "-m"; "venv"; venv];
       Deploy.command
         [Deploy.path_join venv ["bin"; "pip"]; "install"; "-r";
          Deploy.path_join config_dir ["requirements.txt"]]]
    /\ match os_subprocess_run St B
               [Deploy.sys_executable env; "-m"; "venv"; venv]
               (Deploy.dext w)
       with
       | (Ok 0%Z, _) =>
           Deploy.devents_of (Deploy.install_dependencies B env config) w
           = [Deploy.command [Deploy.sys_executable env; "-m"; "venv"; venv];
              Deploy.command
                [Deploy.path_join venv ["bin"; "pip"]; "install"; "-r";
                 Deploy.path_join config_dir ["requirements.txt"]]]
       | _ =>
           Deploy.devents_of (Deploy.install_dependencies B env config) w
           = [Deploy.command [Deploy.sys_executable env; "-m"; "venv"; venv]]
           /\ fst (Deploy.install_dependencies B env config w) = Ok false
       end.
Proof.
  intros St B env config w venv config_dir Hv Hc.
  apply config_str_val in Hv, Hc.
  unfold Deploy.devents_of, Deploy.is_prefix, Deploy.command.
  unfold_deploy. rewrite Hv. simpl.
  destruct (os_subprocess_run St B
              [Deploy.sys_executable env; "-m"; "venv"; venv] (Deploy.dext w))
    as [[rc|e] s1]; simpl.
  - destruct rc as [|p|p]; simpl; rewrite ?Hc; simpl.
    + case_step; [destruct (a =? 0)%Z|]; simpl;
        rewrite <- !app_assoc, skipn_app, skipn_all, Nat.sub_diag; simpl;
        (split; [eexists; simpl; reflexivity|reflexivity]).
    + rewrite skipn_app, skipn_all, Nat.sub_diag; simpl.
      split; [eexists; simpl; reflexivity|auto].
    + rewrite skipn_app, skipn_all, Nat.sub_diag; simpl.
      split; [eexists; simpl; reflexivity|auto].
  - rewrite skipn_app, skipn_all, Nat.sub_diag; simpl.
    split; [eexists; simpl; reflexivity|auto].
Qed.

Lemma X18_witness :
  Deploy.devents_of
    (Deploy.install_dependencies
       (RefOS.backend_refusing
          [["/usr/bin/python3"; "-m"; "venv"; "/opt/yubikey-network/venv"]])
       RefOS.env RefOS.config)
    RefOS.w_host
  = [Deploy.command
       ["/usr/bin/python3"; "-m"; "venv"; "/opt/yubikey-network/venv"]]
  /\ fst (Deploy.install_dependencies
            (RefOS.backend_refusing
               [["/usr/bin/python3"; "-m"; "venv";
                 "/opt/yubikey-network/venv"]])
            RefOS.env RefOS.config RefOS.w_host)
     = Ok false.
Proof.
  exact (proj2 (X18_pip_runs_only_after_venv Ref.State
                  (RefOS.backend_refusing
                     [["/usr/bin/python3"; "-m"; "venv";
                       "/opt/yubikey-network/venv"]])
                  RefOS.env RefOS.config RefOS.w_host
                  "/opt/yubikey-network/venv" "/etc/yubikey-network"
                  eq_refl eq_refl)).
Defined.

(* Split on what a deployment step inspects next. *)
Ltac dcase_step :=
  first
    [ match goal with
      | |- context [Deploy.os_path_exists ?St ?O ?p ?s] =>
          let E := fresh "E" in
          destruct (Deploy.os_path_exists St O p s) as [[|] ?] eqn:E; simpl
      end
    | case_step ].


Lemma configure_system_shape {St} (O : Deploy.OsBackend St) env config w c :
  config_str config "paths" "config_src" = Some c ->
  exists evs,
    Deploy.dtrace (snd (Deploy.configure_system O env config w))
    = Deploy.dtrace w ++ evs
    /\ Deploy.is_prefix evs
         (map (fun f => Deploy.ECopy2 (Deploy.path_join c [fst f])
                          (Deploy.expanduser env (snd f)))
              Deploy.config_files
          ++ [Deploy.EExists (PStr Deploy.nginx_link);
              Deploy.ESymlink Deploy.nginx_available Deploy.nginx_link])
    /\ match fst (Deploy.configure_system O env config w) with
       | Ok true =>
           exists tail,
             evs = map (fun f => Deploy.ECopy2 (Deploy.path_join c [fst f])
                                   (Deploy.expanduser env (snd f)))
                       Deploy.config_files
                   ++ Deploy.EExists (PStr Deploy.nginx_link) :: tail
             /\ (tail = []
                 \/ tail = [Deploy.ESymlink Deploy.nginx_available
                              Deploy.nginx_link])
       | Ok false => True
       | Raise _ => False
       end.
Proof.
  intros Hc. apply config_str_val in Hc.
  unfold Deploy.is_prefix. unfold_deploy. rewrite Hc.
  cbn [map fst snd Deploy.config_files app].
  remember (Deploy.expanduser env "~/.gnupg/gpg-agent.conf") as gpg_dst.
  simpl.
  repeat dcase_step;
    (eexists; rewrite <- ?app_assoc; simpl; split; [reflexivity|];
     split; [eexists; simpl; reflexivity|]; try exact I;
     try (eexists; split; [reflexivity|auto])).
Qed.

(** X19. [configure_system] copies server.conf, gpg-agent.conf,
    supervisord.conf and nginx.conf from the configuration sources to their
    destinations in this order (only the gpg-agent destination depends on the
    home directory), then looks for the nginx site link and creates it as the
    last call; a run that returns [True] has made the four copies and the
    look-up, followed by at most the creation of the link. *)
Theorem X19_system_files_copied_then_link :
  forall St (O : Deploy.OsBackend St) (env : Deploy.Env) (config : Config)
         w c,
    config_str config "paths" "config_src" = Some c ->
    Deploy.is_prefix
      (Deploy.devents_of (Deploy.configure_system O env config) w)
      (Deploy.system_files_calls env c)
    /\ match fst (Deploy.configure_system O env config w) with
       | Ok true =>
           Deploy.devents_of (Deploy.configure_system O env config) w
           = firstn 5 (Deploy.system_files_calls env c)
           \/ Deploy.devents_of (Deploy.configure_system O env config) w
              = Deploy.system_files_calls env c
       | Ok false => True
       | Raise _ => False
       end.
Proof.
  intros St O env config w c Hc.
  destruct (configure_system_shape O env config w c Hc)
    as (evs & Ht & Hp & Hr).
  rewrite (devents_of_app _ _ _ Ht). split; [exact Hp|].
  destruct (fst (Deploy.configure_system O env config w)) as [[|]|]; auto.
  destruct Hr as (tail & -> & [-> | ->]); [left|right]; reflexivity.
Qed.

Lemma X19_witness :
  fst (Deploy.configure_system RefOS.os RefOS.env RefOS.config RefOS.w_host)
  = Ok true
  /\ Deploy.is_prefix
       (Deploy.devents_of
          (Deploy.configure_system RefOS.os RefOS.env RefOS.config)
          RefOS.w_host)
       [Deploy.ECopy2 "/srv/config/server.conf"
          "/etc/yubikey-network/server.conf";
        Deploy.ECopy2 "/srv/config/gpg-agent.conf"
          "/root/.gnupg/gpg-agent.conf";
        Deploy.ECopy2 "/srv/config/supervisord.conf"
          "/etc/supervisor/conf.d/yubikey-network.conf";
        Deploy.ECopy2 "/srv/config/nginx.conf"
          "/etc/nginx/sites-available/yubikey-network";
        Deploy.EExists (PStr "/etc/nginx/sites-enabled/yubikey-network");
        Deploy.ESymlink "/etc/nginx/sites-available/yubikey-network"
          "/etc/nginx/sites-enabled/yubikey-network"].
Proof.
  split; [reflexivity|].
  exact (proj1 (X19_system_files_copied_then_link Ref.State RefOS.os
                  RefOS.env RefOS.config RefOS.w_host "/srv/config" eq_refl)).
Defined.

(** X20. The nginx site link is created only when it is not there: when the
    four copies succeed and the link is found, [configure_system] returns
    [True] without calling [os.symlink], so running the step again does not
    fail on the existing link. *)
Theorem X20_existing_link_is_kept :
  forall St (O : Deploy.OsBackend St) (env : Deploy.Env) (config : Config)
         w c s1 s2 s3 s4 s5,
    config_str config "paths" "config_src" = Some c ->
    Deploy.shutil_copy2 St O (Deploy.path_join c ["server.conf"])
      "/etc/yubikey-network/server.conf" (Deploy.dext w) = (Ok tt, s1) ->
    Deploy.shutil_copy2 St O (Deploy.path_join c ["gpg-agent.conf"])
      (Deploy.expanduser env "~/.gnupg/gpg-agent.conf") s1 = (Ok tt, s2) ->
    Deploy.shutil_copy2 St O (Deploy.path_join c ["supervisord.conf"])
      "/etc/supervisor/conf.d/yubikey-network.conf" s2 = (Ok tt, s3) ->
    Deploy.shutil_copy2 St O (Deploy.path_join c ["nginx.conf"])
      "/etc/nginx/sites-available/yubikey-network" s3 = (Ok tt, s4) ->
    Deploy.os_path_exists St O (PStr Deploy.nginx_link) s4 = (true, s5) ->
    fst (Deploy.configure_system O env config w) = Ok true
    /\ Forall (fun ev => match ev with
                         | Deploy.ESymlink _ _ => False
                         | _ => True
                         end)
              (Deploy.devents_of (Deploy.configure_system O env config) w)
    /\ Deploy.dext (snd (Deploy.configure_system O env config w)) = s5.
Proof.
  intros St O env config w c s1 s2 s3 s4 s5 Hc H1 H2 H3 H4 H5.
  apply config_str_val in Hc.
  unfold Deploy.devents_of. unfold_deploy. rewrite Hc.
  remember (Deploy.expanduser env "~/.gnupg/gpg-agent.conf") as gpg_dst.
  simpl.
  unfold Deploy.path_join in H1, H2, H3, H4. simpl in H1, H2, H3, H4.
  rewrite H1. simpl. rewrite H2. simpl. rewrite H3. simpl. rewrite H4. simpl.
  rewrite H5. simpl.
  rewrite <- !app_assoc, skipn_app, skipn_all, Nat.sub_diag. simpl.
  split; [reflexivity|]. split; [repeat constructor|reflexivity].
Qed.

Lemma X20_witness :
  fst (Deploy.configure_system RefOS.os RefOS.env RefOS.config
         (snd (Deploy.configure_system RefOS.os RefOS.env RefOS.config
                 RefOS.w_host)))
  = Ok true
  /\ existsb (fun ev => match ev with
                        | Deploy.ESymlink _ _ => true
                        | _ => false
                        end)
       (Deploy.devents_of
          (Deploy.configure_system RefOS.os RefOS.env RefOS.config)
          (snd (Deploy.configure_system RefOS.os RefOS.env RefOS.config
                  RefOS.w_host)))
     = false.
Proof.
  split; [|vm_compute; reflexivity].
  eapply (proj1 (X20_existing_link_is_kept Ref.State RefOS.os RefOS.env
                   RefOS.config
                   (snd (Deploy.configure_system RefOS.os RefOS.env
                           RefOS.config RefOS.w_host))
                   "/srv/config" _ _ _ _ _
                   eq_refl eq_refl eq_refl eq_refl eq_refl eq_refl)).
Defined.

(** X21. [setup_database] builds both SQL commands before it runs anything:
    when the database user or the database name is missing from the
    configuration, it returns [False] and no command has been run. *)
Theorem X21_database_nothing_run_on_missing_entry :
  forall St (B : Backend St) (config : Config) w k e,
    k = "user" \/ k = "name" ->
    Deploy.config_val config "database" k = Raise e ->
    fst (Deploy.setup_database B config w) = Ok false
    /\ Deploy.devents_of (Deploy.setup_database B config) w = []
    /\ Deploy.dext (snd (Deploy.setup_database B config w)) = Deploy.dext w.
Proof.
  intros St B config w k e Hk He. unfold Deploy.devents_of.
  unfold Deploy.setup_database, Deploy.dtry, Deploy.dbind, Deploy.cfg,
    Deploy.dlift.
  destruct (Deploy.config_val config "database" "user") eqn:E1;
    [|simpl; rewrite skipn_all; auto].
  destruct (Deploy.config_val config "database" "name") eqn:E2;
    [|simpl; rewrite skipn_all; auto].
  exfalso. destruct Hk as [-> | ->]; congruence.
Qed.

Lemma X21_witness :
  Deploy.config_val (RefOS.without "database" "name" RefOS.config)
    "database" "name"
  = Raise (KeyError "name")
  /\ fst (Deploy.setup_database (RefOS.backend [])
            (RefOS.without "database" "name" RefOS.config) RefOS.w_host)
     = Ok false
  /\ Deploy.devents_of
       (Deploy.setup_database (RefOS.backend [])
          (RefOS.without "database" "name" RefOS.config))
       RefOS.w_host
     = [].
Proof.
  split; [reflexivity|].
  pose proof (X21_database_nothing_run_on_missing_entry Ref.State
                (RefOS.backend [])
                (RefOS.without "database" "name" RefOS.config)
                RefOS.w_host "name" _ (or_intror eq_refl) eq_refl) as H.
  split; [exact (proj1 H)|exact (proj1 (proj2 H))].
Defined.

(** X22. With user, name and configuration source in place,
    [setup_database] runs [createuser -s user] and
    [createdb -O user name] through [sudo -u postgres psql -c] and then
    applies [schema.sql] as that user, in this order, stopping at the first
    command that fails; a run that returns [True] has run all three. *)
Theorem X22_database_commands_in_order :
  forall St (B : Backend St) (config : Config) w user name config_src,
    config_str config "database" "user" = Some user ->
    config_str config "database" "name" = Some name ->
    config_str config "paths" "config_src" = Some config_src ->
    Deploy.is_prefix
      (Deploy.devents_of (Deploy.setup_database B config) w)
      (Deploy.database_admin_calls user name
       ++ [Deploy.database_schema_call user name config_src])
    /\ match fst (Deploy.setup_database B config w) with
       | Ok true =>
           Deploy.devents_of (Deploy.setup_database B config) w
           = Deploy.database_admin_calls user name
             ++ [Deploy.database_schema_call user name config_src]
       | Ok false => True
       | Raise _ => False
       end.
Proof.
  intros St B config w user name config_src Hu Hn Hc.
  apply config_str_val in Hu, Hn, Hc.
  assert (exists evs,
            Deploy.dtrace (snd (Deploy.setup_database B config w))
            = Deploy.dtrace w ++ evs
            /\ Deploy.is_prefix evs
                 (Deploy.database_admin_calls user name
                  ++ [Deploy.database_schema_call user name config_src])
            /\ match fst (Deploy.setup_database B config w) with
               | Ok true =>
                   evs = Deploy.database_admin_calls user name
                         ++ [Deploy.database_schema_call user name config_src]
               | Ok false => True
               | Raise _ => False
               end) as (evs & Ht & Hp & Hr).
  { unfold Deploy.is_prefix, Deploy.database_admin_calls,
      Deploy.database_schema_call, Deploy.command.
    unfold_deploy. rewrite Hu, Hn. simpl.
    repeat first [rewrite Hc; simpl | rewrite Hu; simpl | rewrite Hn; simpl
                 | case_step];
      (eexists; rewrite <- ?app_assoc; simpl; split; [reflexivity|];
       split; [eexists; simpl; reflexivity|]; try exact I; auto). }
  rewrite (devents_of_app _ _ _ Ht). split; assumption.
Qed.

Lemma X22_witness :
  fst (Deploy.setup_database (RefOS.backend []) RefOS.config RefOS.w_host)
  = Ok true
  /\ Deploy.devents_of (Deploy.setup_database (RefOS.backend []) RefOS.config)
       RefOS.w_host
     = [Deploy.command ["sudo"; "-u"; "postgres"; "psql"; "-c";
                        "createuser -s yubikey"];
        Deploy.command ["sudo"; "-u"; "postgres"; "psql"; "-c";
                        "createdb -O yubikey yubikey_network"];
        Deploy.command ["psql"; "-U"; "yubikey"; "-d"; "yubikey_network";
                        "-f"; "/srv/config/schema.sql"]].
Proof.
  split; [reflexivity|].
  pose proof (X22_database_commands_in_order Ref.State (RefOS.backend [])
                RefOS.config RefOS.w_host "yubikey" "yubikey_network"
                "/srv/config" eq_refl eq_refl eq_refl) as H.
  exact (proj2 H).
Defined.

(** X23. The path of the schema is looked up only after the two
    administrative commands have run: when it is missing from the
    configuration and both commands succeed, [setup_database] returns
    [False] with the user and the database already created. *)
Theorem X23_database_created_before_schema_lookup :
  forall St (B : Backend St) (config : Config) w user name e s1 s2,
    config_str config "database" "user" = Some user ->
    config_str config "database" "name" = Some name ->
    Deploy.config_val config "paths" "config_src" = Raise e ->
    os_subprocess_run St B
      ["sudo"; "-u"; "postgres"; "psql"; "-c";
       ("createuser -s " ++ user)%string]
      (Deploy.dext w) = (Ok 0%Z, s1) ->
    os_subprocess_run St B
      ["sudo"; "-u"; "postgres"; "psql"; "-c";
       ("createdb -O " ++ user ++ " " ++ name)%string]
      s1 = (Ok 0%Z, s2) ->
    fst (Deploy.setup_database B config w) = Ok false
    /\ Deploy.devents_of (Deploy.setup_database B config) w
       = Deploy.database_admin_calls user name
    /\ Deploy.dext (snd (Deploy.setup_database B config w)) = s2.
Proof.
  intros St B config w user name e s1 s2 Hu Hn Hc H1 H2.
  apply config_str_val in Hu, Hn.
  unfold Deploy.devents_of, Deploy.database_admin_calls, Deploy.command.
  unfold_deploy. rewrite Hu, Hn. simpl.
  simpl in H1, H2. rewrite H1. simpl. rewrite H2. simpl. rewrite Hc. simpl.
  rewrite <- !app_assoc, skipn_app, skipn_all, Nat.sub_diag. auto.
Qed.

Lemma X23_witness :
  fst (Deploy.setup_database (RefOS.backend [])
         (RefOS.without "paths" "config_src" RefOS.config) RefOS.w_host)
  = Ok false
  /\ Deploy.devents_of
       (Deploy.setup_database (RefOS.backend [])
          (RefOS.without "paths" "config_src" RefOS.config))
       RefOS.w_host
     = Deploy.database_admin_calls "yubikey" "yubikey_network".
Proof.
  pose proof (X23_database_created_before_schema_lookup Ref.State
                (RefOS.backend [])
                (RefOS.without "paths" "config_src" RefOS.config)
                RefOS.w_host "yubikey" "yubikey_network" _ _ _
                eq_refl eq_refl eq_refl eq_refl eq_refl) as H.
  split; [exact (proj1 H)|exact (proj1 (proj2 H))].
Defined.

(** X24. [setup_redis] opens [redis.conf] for appending before it reads the
    configuration, one entry per line written: when the port is configured
    and the bind address is missing, the run returns [False] without
    restarting Redis, and the file has been opened and, unless the opening
    failed, extended by the port line and closed. *)
Theorem X24_redis_partial_write_on_missing_entry :
  forall St (B : Backend St) (O : Deploy.OsBackend St) (config : Config)
         w port e,
    Deploy.config_val config "redis" "port" = Ok port ->
    Deploy.config_val config "redis" "bind" = Raise e ->
    fst (Deploy.setup_redis B O config w) = Ok false
    /\ (Deploy.devents_of (Deploy.setup_redis B O config) w
        = [Deploy.EOpenAppend Deploy.redis_conf]
        \/ Deploy.devents_of (Deploy.setup_redis B O config) w
           = [Deploy.EOpenAppend Deploy.redis_conf;
              Deploy.EWrite Deploy.redis_conf
                (Deploy.newline ++ "port " ++ Deploy.str_pyval port
                 ++ Deploy.newline)%string;
              Deploy.EClose Deploy.redis_conf]).
Proof.
  intros St B O config w port e Hp Hb.
  unfold Deploy.devents_of. unfold_deploy. simpl.
  case_step.
  - rewrite Hp. simpl. case_step; rewrite ?Hb; simpl; case_step;
      rewrite <- !app_assoc, skipn_app, skipn_all, Nat.sub_diag; simpl;
      (split; [reflexivity|right; reflexivity]).
  - rewrite skipn_app, skipn_all, Nat.sub_diag. simpl.
    split; [reflexivity|left; reflexivity].
Qed.

Lemma X24_witness :
  fst (Deploy.setup_redis (RefOS.backend []) RefOS.os
         (RefOS.without "redis" "bind" RefOS.config) RefOS.w_host)
  = Ok false
  /\ RefOS.content Deploy.redis_conf
       (Deploy.dext
          (snd (Deploy.setup_redis (RefOS.backend []) RefOS.os
                  (RefOS.without "redis" "bind" RefOS.config) RefOS.w_host)))
     = Some (Deploy.newline ++ "port 6379" ++ Deploy.newline)%string.
Proof.
  split; [|reflexivity].
  exact (proj1 (X24_redis_partial_write_on_missing_entry Ref.State
                  (RefOS.backend []) RefOS.os
                  (RefOS.without "redis" "bind" RefOS.config)
                  RefOS.w_host (PInt 6379) _ eq_refl eq_refl)).
Defined.

Lemma setup_redis_shape {St} (B : Backend St) (O : Deploy.OsBackend St)
    config w port bind_ maxmemory policy :
  Deploy.config_val config "redis" "port" = Ok port ->
  Deploy.config_val config "redis" "bind" = Ok bind_ ->
  Deploy.config_val config "redis" "maxmemory" = Ok maxmemory ->
  Deploy.config_val config "redis" "maxmemory_policy" = Ok policy ->
  exists evs,
    Deploy.dtrace (snd (Deploy.setup_redis B O config w))
    = Deploy.dtrace w ++ evs
    /\ (evs = Deploy.redis_calls port bind_ maxmemory policy
        \/ ~ In Deploy.redis_restart evs)
    /\ match fst (Deploy.setup_redis B O config w) with
       | Ok true => evs = Deploy.redis_calls port bind_ maxmemory policy
       | Ok false => True
       | Raise _ => False
       end.
Proof.
  intros Hp Hb Hm Hy.
  unfold Deploy.redis_calls, Deploy.redis_lines, Deploy.redis_restart,
    Deploy.command.
  unfold_deploy. simpl.
  repeat first [ rewrite Hp; simpl | rewrite Hb; simpl | rewrite Hm; simpl
               | rewrite Hy; simpl | case_step ];
    (eexists; rewrite <- ?app_assoc; simpl; split; [reflexivity|];
     split;
     [ first [ left; reflexivity
             | right; simpl; intros H;
               repeat (destruct H as [H|H]; [discriminate|]); exact H ]
     | try exact I; auto ]).
Qed.

(** X25. With the four Redis entries in place, [setup_redis] appends the
    port, bind, maxmemory and maxmemory-policy lines to [redis.conf] and
    restarts Redis only after all four lines have been written and the file
    closed; a run that returns [True] has made exactly these calls. *)
Theorem X25_redis_restarted_after_complete_write :
  forall St (B : Backend St) (O : Deploy.OsBackend St) (config : Config)
         w port bind_ maxmemory policy,
    Deploy.config_val config "redis" "port" = Ok port ->
    Deploy.config_val config "redis" "bind" = Ok bind_ ->
    Deploy.config_val config "redis" "maxmemory" = Ok maxmemory ->
    Deploy.config_val config "redis" "maxmemory_policy" = Ok policy ->
    (Deploy.devents_of (Deploy.setup_redis B O config) w
     = Deploy.redis_calls port bind_ maxmemory policy
     \/ ~ In Deploy.redis_restart
            (Deploy.devents_of (Deploy.setup_redis B O config) w))
    /\ match fst (Deploy.setup_redis B O config w) with
       | Ok true =>
           Deploy.devents_of (Deploy.setup_redis B O config) w
           = Deploy.redis_calls port bind_ maxmemory policy
       | Ok false => True
       | Raise _ => False
       end.
Proof.
  intros St B O config w port bind_ maxmemory policy Hp Hb Hm Hy.
  destruct (setup_redis_shape B O config w port bind_ maxmemory policy
              Hp Hb Hm Hy) as (evs & Ht & Hd & Hr).
  rewrite (devents_of_app _ _ _ Ht). split; assumption.
Qed.

Lemma X25_witness :
  fst (Deploy.setup_redis (RefOS.backend []) RefOS.os RefOS.config
         RefOS.w_host)
  = Ok true
  /\ Deploy.devents_of
       (Deploy.setup_redis (RefOS.backend []) RefOS.os RefOS.config)
       RefOS.w_host
     = Deploy.redis_calls (PInt 6379) (PStr "127.0.0.1") (PStr "256mb")
         (PStr "allkeys-lru").
Proof.
  split; [reflexivity|].
  pose proof (X25_redis_restarted_after_complete_write Ref.State
                (RefOS.backend []) RefOS.os RefOS.config RefOS.w_host
                _ _ _ _ eq_refl eq_refl eq_refl eq_refl) as H.
  exact (proj2 H).
Defined.

(** Each run appends: a second run leaves every line twice in the file. *)
Example setup_redis_appends_again :
  RefOS.content Deploy.redis_conf
    (Deploy.dext
       (snd (Deploy.setup_redis (RefOS.backend []) RefOS.os RefOS.config
               (snd (Deploy.setup_redis (RefOS.backend []) RefOS.os
                       RefOS.config RefOS.w_host)))))
  = Some (String.concat ""
            (Deploy.redis_lines (PInt 6379) (PStr "127.0.0.1") (PStr "256mb")
               (PStr "allkeys-lru")
             ++ Deploy.redis_lines (PInt 6379) (PStr "127.0.0.1")
                  (PStr "256mb") (PStr "allkeys-lru"))).
Proof. vm_compute. reflexivity. Qed.

(** X26. [configure_ssl] issues a certificate unless both files are there.
    It looks for the certificate and, only if that exists, for the key; when
    both exist it runs nothing and returns [True]; otherwise it runs one
    [openssl req -x509] command that writes both files anew, over whichever
    of the two was present, and returns [True] exactly when that command
    ends with status 0. *)
Theorem X26_certificate_issued_unless_both_present :
  forall St (B : Backend St) (O : Deploy.OsBackend St) (config : Config)
         w cert key cert_there s1 key_there s2,
    config_str config "ssl" "cert_path" = Some cert ->
    config_str config "ssl" "key_path" = Some key ->
    Deploy.os_path_exists St O (PStr cert) (Deploy.dext w)
    = (cert_there, s1) ->
    Deploy.os_path_exists St O (PStr key) s1 = (key_there, s2) ->
    Deploy.devents_of (Deploy.configure_ssl B O config) w
    = [Deploy.EExists (PStr cert)]
      ++ (if cert_there then [Deploy.EExists (PStr key)] else [])
      ++ (if cert_there && key_there then []
          else [Deploy.openssl_call key cert])
    /\ (fst (Deploy.configure_ssl B O config w) = Ok true
        <-> (cert_there && key_there = true
             \/ exists s3,
                  os_subprocess_run St B
                    ["openssl"; "req"; "-x509"; "-nodes"; "-days"; "365";
                     "-newkey"; "rsa:2048"; "-keyout"; key; "-out"; cert;
                     "-subj"; "/CN=yubikey-network"]
                    (if cert_there then s2 else s1)
                  = (Ok 0%Z, s3))).
Proof.
  intros St B O config w cert key cert_there s1 key_there s2 Hc Hk H1 H2.
  apply config_str_val in Hc, Hk.
  unfold Deploy.devents_of, Deploy.openssl_call, Deploy.command.
  unfold_deploy. rewrite Hc. simpl. rewrite Hk. simpl. rewrite H1. simpl.
  destruct cert_there; simpl.
  - rewrite H2. simpl. destruct key_there; simpl.
    + rewrite <- !app_assoc, skipn_app, skipn_all, Nat.sub_diag. simpl.
      split; [reflexivity|]. split; auto.
    + case_step.
      * destruct (a =? 0)%Z eqn:Ha; simpl;
          rewrite <- !app_assoc, skipn_app, skipn_all, Nat.sub_diag; simpl;
          (split; [reflexivity|]).
        -- apply Z.eqb_eq in Ha. subst a. split; eauto.
        -- apply Z.eqb_neq in Ha. split; [discriminate|].
           intros [H|(s3 & H)]; [discriminate|]. congruence.
      * rewrite <- !app_assoc, skipn_app, skipn_all, Nat.sub_diag; simpl.
        split; [reflexivity|]. split; [discriminate|].
        intros [H|(s3 & H)]; discriminate.
  - case_step.
    + destruct (a =? 0)%Z eqn:Ha; simpl;
        rewrite <- !app_assoc, skipn_app, skipn_all, Nat.sub_diag; simpl;
        (split; [reflexivity|]).
      * apply Z.eqb_eq in Ha. subst a. split; eauto.
      * apply Z.eqb_neq in Ha. split; [discriminate|].
        intros [H|(s3 & H)]; [discriminate|]. congruence.
    + rewrite <- !app_assoc, skipn_app, skipn_all, Nat.sub_diag; simpl.
      split; [reflexivity|]. split; [discriminate|].
      intros [H|(s3 & H)]; discriminate.
Qed.

Lemma X26_witness :
  Deploy.devents_of
    (Deploy.configure_ssl (RefOS.backend []) RefOS.os RefOS.config)
    RefOS.w_host_with_certificates
  = [Deploy.EExists (PStr "/etc/yubikey-network/ssl/server.crt");
     Deploy.EExists (PStr "/etc/yubikey-network/ssl/server.key")]
  /\ fst (Deploy.configure_ssl (RefOS.backend []) RefOS.os RefOS.config
            RefOS.w_host_with_certificates)
     = Ok true.
Proof.
  pose proof (X26_certificate_issued_unless_both_present Ref.State
                (RefOS.backend []) RefOS.os RefOS.config
                RefOS.w_host_with_certificates
                "/etc/yubikey-network/ssl/server.crt"
                "/etc/yubikey-network/ssl/server.key"
                true _ true _ eq_refl eq_refl eq_refl eq_refl) as H.
  split; [exact (proj1 H)|]. apply (proj2 H). left. reflexivity.
Defined.

(** On a host without certificate only the certificate is looked for, and
    the command writes both files. *)
Example configure_ssl_on_fresh_host :
  Deploy.devents_of
    (Deploy.configure_ssl (RefOS.backend []) RefOS.os RefOS.config)
    RefOS.w_host
  = [Deploy.EExists (PStr "/etc/yubikey-network/ssl/server.crt");
     Deploy.openssl_call "/etc/yubikey-network/ssl/server.key"
       "/etc/yubikey-network/ssl/server.crt"].
Proof. vm_compute. reflexivity. Qed.

Lemma configure_services_shape {St} (B : Backend St)
    (O : Deploy.OsBackend St) config w c :
  config_str config "paths" "config_src" = Some c ->
  exists evs,
    Deploy.dtrace (snd (Deploy.configure_services B O config w))
    = Deploy.dtrace w ++ evs
    /\ Deploy.is_prefix evs (Deploy.service_calls c)
    /\ match fst (Deploy.configure_services B O config w) with
       | Ok true => evs = Deploy.service_calls c
       | Ok false => True
       | Raise _ => False
       end.
Proof.
  intros Hc. apply config_str_val in Hc.
  unfold Deploy.is_prefix, Deploy.service_calls, Deploy.unit_calls,
    Deploy.command.
  unfold_deploy. simpl.
  repeat first [ rewrite Hc; simpl | case_step ];
    (eexists; rewrite <- ?app_assoc; simpl; split; [reflexivity|];
     split; [eexists; simpl; reflexivity|]; try exact I; auto).
Qed.

(** X27. [configure_services] installs the two unit files one after the
    other: for each it copies the file to [/etc/systemd/system], reloads
    systemd and enables the unit, stopping at the first call that fails; a
    run that returns [True] has made all six calls, the reload twice. *)
Theorem X27_units_copied_reloaded_enabled :
  forall St (B : Backend St) (O : Deploy.OsBackend St) (config : Config)
         w c,
    config_str config "paths" "config_src" = Some c ->
    Deploy.is_prefix
      (Deploy.devents_of (Deploy.configure_services B O config) w)
      (Deploy.service_calls c)
    /\ match fst (Deploy.configure_services B O config w) with
       | Ok true =>
           Deploy.devents_of (Deploy.configure_services B O config) w
           = Deploy.service_calls c
       | Ok false => True
       | Raise _ => False
       end.
Proof.
  intros St B O config w c Hc.
  destruct (configure_services_shape B O config w c Hc)
    as (evs & Ht & Hp & Hr).
  rewrite (devents_of_app _ _ _ Ht). split; assumption.
Qed.

Lemma X27_witness :
  fst (Deploy.configure_services (RefOS.backend []) RefOS.os RefOS.config
         RefOS.w_host)
  = Ok true
  /\ Deploy.devents_of
       (Deploy.configure_services (RefOS.backend []) RefOS.os RefOS.config)
       RefOS.w_host
     = [Deploy.ECopy2 "/srv/config/yubikey-network.service"
          "/etc/systemd/system/yubikey-network.service";
        Deploy.command ["systemctl"; "daemon-reload"];
        Deploy.command ["systemctl"; "enable"; "yubikey-network.service"];
        Deploy.ECopy2 "/srv/config/yubikey-monitor.service"
          "/etc/systemd/system/yubikey-monitor.service";
        Deploy.command ["systemctl"; "daemon-reload"];
        Deploy.command ["systemctl"; "enable"; "yubikey-monitor.service"]].
Proof.
  split; [reflexivity|].
  pose proof (X27_units_copied_reloaded_enabled Ref.State (RefOS.backend [])
                RefOS.os RefOS.config RefOS.w_host "/srv/config" eq_refl)
    as H.
  exact (proj2 H).
Defined.

(** ** The deployment as a whole *)

Ltac dcase_any :=
  first
    [ dcase_step
    | match goal with
      | |- context [match ?v with PStr _ => _ | PInt _ => _ end] =>
          lazymatch v with
          | context [match _ with _ => _ end] => fail
          | _ => destruct v; simpl
          end
      end ].

Ltac solve_returns :=
  intros w; unfold_deploy; simpl; repeat dcase_any;
  (do 2 eexists; rewrite <- ?app_assoc; simpl;
   split; [reflexivity|];
   first [reflexivity | rewrite app_nil_r; reflexivity]).

Lemma check_prerequisites_returns {St} (B : Backend St) env :
  Deploy.returns_bool (Deploy.check_prerequisites B env).
Proof. solve_returns. Qed.

Lemma setup_directories_returns {St} (O : Deploy.OsBackend St) config :
  Deploy.returns_bool (Deploy.setup_directories O config).
Proof. solve_returns. Qed.

Lemma install_dependencies_returns {St} (B : Backend St) env config :
  Deploy.returns_bool (Deploy.install_dependencies B env config).
Proof. solve_returns. Qed.

Lemma configure_system_returns {St} (O : Deploy.OsBackend St) env config :
  Deploy.returns_bool (Deploy.configure_system O env config).
Proof.
  intros w. unfold_deploy.
  cbn [map fst snd Deploy.config_files app].
  remember (Deploy.expanduser env "~/.gnupg/gpg-agent.conf") as gpg_dst.
  simpl. repeat dcase_any;
  (do 2 eexists; rewrite <- ?app_assoc; simpl;
   split; [reflexivity|];
   first [reflexivity | rewrite app_nil_r; reflexivity]).
Qed.

Lemma setup_database_returns {St} (B : Backend St) config :
  Deploy.returns_bool (Deploy.setup_database B config).
Proof. solve_returns. Qed.

Lemma setup_redis_returns {St} (B : Backend St) (O : Deploy.OsBackend St)
    config :
  Deploy.returns_bool (Deploy.setup_redis B O config).
Proof. solve_returns. Qed.

Lemma configure_ssl_returns {St} (B : Backend St) (O : Deploy.OsBackend St)
    config :
  Deploy.returns_bool (Deploy.configure_ssl B O config).
Proof. solve_returns. Qed.

Lemma configure_services_returns {St} (B : Backend St)
    (O : Deploy.OsBackend St) config :
  Deploy.returns_bool (Deploy.configure_services B O config).
Proof. solve_returns. Qed.

Lemma start_services_returns {St} (B : Backend St) :
  Deploy.returns_bool (Deploy.start_services B).
Proof. solve_returns. Qed.

Lemma setup_yubikey_resets_first {St} (B : Backend St) config w :
  exists b evs,
    setup_yubikey B config w = (Ok b, snd (setup_yubikey B config w))
    /\ trace (snd (setup_yubikey B config w))
       = trace w ++ reset_command :: evs.
Proof.
  unfold reset_command, setup_yubikey, config_get.
  destruct (dict_get "yubikey" config) as [d|];
    [destruct (dict_get "pin" d) as [[pin|z]|];
     [destruct (dict_get "puk" d) as [[puk|z']|]| |]|];
    unfold_script; simpl; repeat case_step;
    (do 2 eexists; rewrite <- ?app_assoc; simpl;
     split; reflexivity).
Qed.

Lemma embedded_setup_yubikey_returns {St} (B : Backend St) config
    (w : Deploy.DWorld St) :
  exists b evs,
    Deploy.embed (setup_yubikey B config) w
    = (Ok b, snd (Deploy.embed (setup_yubikey B config) w))
    /\ Deploy.dtrace (snd (Deploy.embed (setup_yubikey B config) w))
       = Deploy.dtrace w ++ Deploy.piv_reset :: evs.
Proof.
  unfold Deploy.embed, Deploy.piv_reset.
  destruct (setup_yubikey_resets_first B config
              {| ext := Deploy.dext w; trace := []; logs := Deploy.dlogs w;
                 self_yubikey := None |}) as (b & evs & E & T).
  rewrite E. simpl. rewrite T. simpl. eauto.
Qed.

(** What a whole deployment does: the ten steps one after the other. *)
Lemma deploy_runs_all {St} (B : Backend St) (O : Deploy.OsBackend St)
    env config w :
  exists bs before after,
    List.length bs = 10%nat
    /\ fst (Deploy.run_all (Deploy.steps B O env config) w) = map Ok bs
    /\ fst (Deploy.deploy B O env config w) = Ok (forallb (fun b => b) bs)
    /\ Deploy.dtrace (snd (Deploy.deploy B O env config w))
       = Deploy.dtrace (snd (Deploy.run_all (Deploy.steps B O env config) w))
    /\ Deploy.dext (snd (Deploy.deploy B O env config w))
       = Deploy.dext (snd (Deploy.run_all (Deploy.steps B O env config) w))
    /\ Deploy.dtrace (snd (Deploy.deploy B O env config w))
       = Deploy.dtrace w ++ before ++ Deploy.piv_reset :: after.
Proof.
  unfold Deploy.deploy, Deploy.steps, Deploy.run_all, Deploy.dtry,
    Deploy.dbind.
  destruct (check_prerequisites_returns B env w) as (b1 & e1 & E1 & T1).
  rewrite E1. set (w1 := snd (Deploy.check_prerequisites B env w)) in *.
  destruct (setup_directories_returns O config w1) as (b2 & e2 & E2 & T2).
  rewrite E2. set (w2 := snd (Deploy.setup_directories O config w1)) in *.
  destruct (install_dependencies_returns B env config w2)
    as (b3 & e3 & E3 & T3).
  rewrite E3.
  set (w3 := snd (Deploy.install_dependencies B env config w2)) in *.
  destruct (configure_system_returns O env config w3) as (b4 & e4 & E4 & T4).
  rewrite E4. set (w4 := snd (Deploy.configure_system O env config w3)) in *.
  destruct (setup_database_returns B config w4) as (b5 & e5 & E5 & T5).
  rewrite E5. set (w5 := snd (Deploy.setup_database B config w4)) in *.
  destruct (setup_redis_returns B O config w5) as (b6 & e6 & E6 & T6).
  rewrite E6. set (w6 := snd (Deploy.setup_redis B O config w5)) in *.
  destruct (configure_ssl_returns B O config w6) as (b7 & e7 & E7 & T7).
  rewrite E7. set (w7 := snd (Deploy.configure_ssl B O config w6)) in *.
  destruct (embedded_setup_yubikey_returns B config w7)
    as (b8 & e8 & E8 & T8).
  rewrite E8.
  set (w8 := snd (Deploy.embed (setup_yubikey B config) w7)) in *.
  destruct (configure_services_returns B O config w8)
    as (b9 & e9 & E9 & T9).
  rewrite E9. set (w9 := snd (Deploy.configure_services B O config w8)) in *.
  destruct (start_services_returns B w9) as (b10 & e10 & E10 & T10).
  rewrite E10. set (w10 := snd (Deploy.start_services B w9)) in *.
  exists [b1; b2; b3; b4; b5; b6; b7; b8; b9; b10].
  exists (e1 ++ e2 ++ e3 ++ e4 ++ e5 ++ e6 ++ e7), (e8 ++ e9 ++ e10).
  assert (Htrace : Deploy.dtrace w10
                   = Deploy.dtrace w
                     ++ (e1 ++ e2 ++ e3 ++ e4 ++ e5 ++ e6 ++ e7)
                     ++ Deploy.piv_reset :: e8 ++ e9 ++ e10).
  { rewrite T10, T9, T8, T7, T6, T5, T4, T3, T2, T1.
    repeat rewrite <- app_assoc. simpl. repeat rewrite <- app_assoc.
    reflexivity. }
  cbn [fst snd map List.length].
  destruct (forallb (fun b : bool => b)
              [b1; b2; b3; b4; b5; b6; b7; b8; b9; b10]) eqn:Hall;
    unfold Deploy.dlog, Deploy.dret; cbn [fst snd Deploy.dtrace Deploy.dext];
    repeat split; try reflexivity; exact Htrace.
Qed.

(** X28. Every deployment resets the PIV applet of the token: whatever the
    configuration and whatever the earlier steps returned, a failed
    prerequisite check included, [deploy] runs [ykman piv reset -f]; it
    always returns a boolean. *)
Theorem X28_deploy_always_resets_the_token :
  forall St (B : Backend St) (O : Deploy.OsBackend St) (env : Deploy.Env)
         (config : Config) w,
    In Deploy.piv_reset (Deploy.devents_of (Deploy.deploy B O env config) w)
    /\ exists b, fst (Deploy.deploy B O env config w) = Ok b.
Proof.
  intros St B O env config w.
  destruct (deploy_runs_all B O env config w)
    as (bs & before & after & _ & _ & Hr & _ & _ & Ht).
  rewrite (devents_of_app _ _ _ Ht). split; [|eauto].
  apply in_or_app. right. left. reflexivity.
Qed.

(** On an interpreter that fails the prerequisite check the token is reset
    all the same, and its PIN and PUK are changed. *)
Example deploy_on_old_python_resets_token :
  fst (Deploy.deploy (RefOS.backend []) RefOS.os RefOS.env_python37
         RefOS.config RefOS.w_host)
  = Ok false
  /\ Ref.pin (Deploy.dext
                (snd (Deploy.deploy (RefOS.backend []) RefOS.os
                        RefOS.env_python37 RefOS.config RefOS.w_host)))
     = "481516".
Proof. vm_compute. split; reflexivity. Qed.

(** X29. [deploy] does not stop at a failed step: it runs all ten steps in
    the order of its list, each in the state the previous one left, none of
    them raises, and the result is [True] exactly when every step returned
    [True]. *)
Theorem X29_deploy_runs_every_step :
  forall St (B : Backend St) (O : Deploy.OsBackend St) (env : Deploy.Env)
         (config : Config) w,
  exists bs,
    List.length bs = 10%nat
    /\ fst (Deploy.run_all (Deploy.steps B O env config) w) = map Ok bs
    /\ fst (Deploy.deploy B O env config w) = Ok (forallb (fun b => b) bs)
    /\ Deploy.dtrace (snd (Deploy.deploy B O env config w))
       = Deploy.dtrace (snd (Deploy.run_all (Deploy.steps B O env config) w))
    /\ Deploy.dext (snd (Deploy.deploy B O env config w))
       = Deploy.dext (snd (Deploy.run_all (Deploy.steps B O env config) w)).
Proof.
  intros St B O env config w.
  destruct (deploy_runs_all B O env config w)
    as (bs & before & after & Hl & Hs & Hr & Ht & He & _).
  exists bs. repeat split; assumption.
Qed.
